(** * Detector de cuellos de botella: embedding of
    [detector_cuellos_botella_corregido.py]

    The class [DetectorCuelloBotellaCorregido] is modelled by explicit state
    passing: the instance is a record, a method is a function from the
    instance to an outcome (a value or a raised exception) and the instance
    as the method left it.

    Numbers.  Python [int] is [Z].  A binary64 value that the program
    computes from finite operands is modelled by the exact rational it
    denotes ([Q]); rounding, overflow and signed zeros are not modelled.
    The result of a NumPy division, which may be [nan] or [inf] without any
    exception being raised, is an [npfloat].

    Where the idealisation matters, the statements say so in their
    hypotheses: a statement on the outcome of a Python division assumes
    counts whose quotients stay inside the float range ([acotados]), a
    statement that rounding could break assumes non-negative counts
    ([sin_negativos]), and a statement on the outcome of the bottleneck
    identifier assumes a distribution with values in [0, 1].  The places
    where rounding decides the answer are computed in IEEE 754 arithmetic
    (section binary64 below).

    External code.  [scipy.linalg.eig] and [numpy.argsort] are parameters of
    the development (section variables).

    Input and output.  Console input, printing, charts and the JSON file
    are not modelled; the one printed value that a statement needs, the loss
    percentage of the stability analysis, is returned next to the label. *)

From Stdlib Require Import ZArith QArith Qabs Lia Lqa SpecFloat.
From stdpp Require Import base option list gmap strings.

Local Open Scope string_scope.

(** ** Outcomes and exceptions *)

Inductive excepcion : Type :=
  | KeyError (clave : string)
  | TypeError
  | IndexError
  | ValueError
  | ZeroDivisionError
  | LinAlgError
  | OverflowError.

Inductive resultado (A : Type) : Type :=
  | Ok (a : A)
  | Raise (e : excepcion).
Arguments Ok {A} a.
Arguments Raise {A} e.

(** ** Numbers *)

(** A NumPy float64 produced by a division. *)
Inductive npfloat : Type :=
  | Num (q : Q)
  | PInf
  | NInf
  | NaN.

Definition es_nan (x : npfloat) : bool :=
  match x with NaN => true | _ => false end.

(** [x <= y] on float64: false as soon as one side is [nan]. *)
Definition np_le (x y : npfloat) : bool :=
  match x, y with
  | NaN, _ | _, NaN => false
  | NInf, _ => true
  | _, PInf => true
  | Num a, Num b => Qle_bool a b
  | PInf, _ => false
  | Num _, NInf => false
  end.

(** [a / b] of NumPy on finite operands: a zero divisor gives [nan] or an
    infinity (with a RuntimeWarning), never an exception. *)
Definition np_true_divide (a b : Q) : npfloat :=
  if Qeq_bool b 0 then
    match (a ?= 0)%Q with
    | Eq => NaN
    | Gt => PInf
    | Lt => NInf
    end
  else Num (a / b).

(** [x * k] for a finite positive scalar [k]. *)
Definition np_por (x : npfloat) (k : Q) : npfloat :=
  match x with
  | Num q => Num (q * k)
  | other => other
  end.

(** [a / b] of Python on two [int], with the quotient as an exact rational.
    Python rounds the quotient to binary64 and raises OverflowError when it
    leaves the float range; neither is modelled here, so this definition
    stands for the program only on operands whose quotient is inside the
    range (see [acotados]).  [py_truediv_binary64] is the rounded
    operation. *)
Definition py_truediv (a b : Z) : resultado Q :=
  if (b =? 0)%Z then Raise ZeroDivisionError
  else Ok (inject_Z a / inject_Z b)%Q.

(** [arr.sum()] on a one-dimensional array. *)
Definition np_sum (l : list Q) : Q := foldr Qplus 0%Q l.

(** [np.abs(arr)]. *)
Definition np_abs (l : list Q) : list Q := Qabs <$> l.

(** [np.argmax] on a one-dimensional float64 array: the scan of NumPy's
    [DOUBLE_argmax], which keeps the first maximum and stops at the first
    [nan]. *)
Fixpoint argmax_desde (mp : npfloat) (imax i : nat) (l : list npfloat) : nat :=
  match l with
  | [] => imax
  | x :: l' =>
      if es_nan mp then imax
      else if np_le x mp then argmax_desde mp imax (S i) l'
      else argmax_desde x i (S i) l'
  end.

Definition np_argmax (l : list npfloat) : resultado nat :=
  match l with
  | [] => Raise ValueError
  | x :: l' => Ok (argmax_desde x 0 1 l')
  end.

(** ** Matrices *)

Definition matriz : Type := list (list Q).

Definition np_zeros (n m : nat) : matriz := replicate n (replicate m 0%Q).

(** [M[i, j] = v]; every use in the program has constant indices inside the
    6x6 shape, so the IndexError of an index out of range is not modelled. *)
Definition asignar_entrada (i j : nat) (v : Q) (M : matriz) : matriz :=
  alter (fun fila => <[j := v]> fila) i M.


(** ** The instance *)

Inductive Estabilidad : Type := ESTABLE | CON_PERDIDAS | INESTABLE.

Record Detector : Type := mkDetector {
  matriz_transicion : option matriz;
  autovalores : option (list Q);
  (** [autovectores] is stored by columns: the k-th element is the column
      [autovectores[:, k]], the eigenvector of the k-th eigenvalue. *)
  autovectores : option (list (list Q));
  autovalor_dominante : option Q;
  autovector_dominante : option (list npfloat);
  cuello_botella_idx : option nat;
  cuello_botella_nombre : option string;
  datos_flujo : gmap string Z
}.

Definition etapas : list string :=
  ["Amasado"; "Horneado"; "Empaque"; "Reproceso"; "Venta"; "Descarte"].
Definition etapas_abrev : list string := ["A"; "H"; "E"; "R"; "V"; "D"].
Definition etapas_productivas : list string :=
  ["Amasado"; "Horneado"; "Empaque"; "Reproceso"].

(** [__init__] *)
Definition init : Detector :=
  {| matriz_transicion := None; autovalores := None; autovectores := None;
     autovalor_dominante := None; autovector_dominante := None;
     cuello_botella_idx := None; cuello_botella_nombre := None;
     datos_flujo := ∅ |}.

(** ** Methods as state transformers *)

Definition metodo (A : Type) : Type := Detector → resultado A * Detector.

Definition ret {A} (a : A) : metodo A := λ s, (Ok a, s).
Definition lanzar {A} (e : excepcion) : metodo A := λ s, (Raise e, s).
Definition ligar {A B} (m : metodo A) (k : A → metodo B) : metodo B :=
  λ s, match m s with
       | (Ok a, s') => k a s'
       | (Raise e, s') => (Raise e, s')
       end.
Definition elevar {A} (r : resultado A) : metodo A := λ s, (r, s).
Definition leer {A} (campo : Detector → A) : metodo A := λ s, (Ok (campo s), s).
Definition escribir (f : Detector → Detector) : metodo unit := λ s, (Ok tt, f s).

Declare Scope metodo_scope.
Delimit Scope metodo_scope with metodo.
Notation "x <- m ;; k" := (ligar m (λ x, k))
  (at level 100, m at next level, right associativity) : metodo_scope.
Notation "m ;;; k" := (ligar m (λ _, k))
  (at level 100, right associativity) : metodo_scope.
Local Open Scope metodo_scope.

(** A field that is still [None] where the code needs an array or a number. *)
Definition exigir {A} (o : option A) : metodo A :=
  match o with Some a => ret a | None => lanzar TypeError end.

(** [self.datos_flujo[k]] *)
Definition dato (k : string) : metodo Z :=
  d <- leer datos_flujo ;;
  match d !! k with Some v => ret v | None => lanzar (KeyError k) end.

(** [l[i]] on a list or array. *)
Definition indice {A} (l : list A) (i : nat) : metodo A :=
  match l !! i with Some a => ret a | None => lanzar IndexError end.

(** Field updates ([self.campo = v]). *)
Definition con_matriz (M : option matriz) (s : Detector) : Detector :=
  mkDetector M (autovalores s) (autovectores s) (autovalor_dominante s)
    (autovector_dominante s) (cuello_botella_idx s) (cuello_botella_nombre s)
    (datos_flujo s).
Definition con_autovalores (w : option (list Q)) (s : Detector) : Detector :=
  mkDetector (matriz_transicion s) w (autovectores s) (autovalor_dominante s)
    (autovector_dominante s) (cuello_botella_idx s) (cuello_botella_nombre s)
    (datos_flujo s).
Definition con_autovectores (v : option (list (list Q))) (s : Detector) : Detector :=
  mkDetector (matriz_transicion s) (autovalores s) v (autovalor_dominante s)
    (autovector_dominante s) (cuello_botella_idx s) (cuello_botella_nombre s)
    (datos_flujo s).
Definition con_autovalor_dominante (l : option Q) (s : Detector) : Detector :=
  mkDetector (matriz_transicion s) (autovalores s) (autovectores s) l
    (autovector_dominante s) (cuello_botella_idx s) (cuello_botella_nombre s)
    (datos_flujo s).
Definition con_autovector_dominante (v : option (list npfloat)) (s : Detector) : Detector :=
  mkDetector (matriz_transicion s) (autovalores s) (autovectores s)
    (autovalor_dominante s) v (cuello_botella_idx s) (cuello_botella_nombre s)
    (datos_flujo s).
Definition con_cuello_idx (i : option nat) (s : Detector) : Detector :=
  mkDetector (matriz_transicion s) (autovalores s) (autovectores s)
    (autovalor_dominante s) (autovector_dominante s) i (cuello_botella_nombre s)
    (datos_flujo s).
Definition con_cuello_nombre (n : option string) (s : Detector) : Detector :=
  mkDetector (matriz_transicion s) (autovalores s) (autovectores s)
    (autovalor_dominante s) (autovector_dominante s) (cuello_botella_idx s) n
    (datos_flujo s).
Definition con_datos (d : gmap string Z) (s : Detector) : Detector :=
  mkDetector (matriz_transicion s) (autovalores s) (autovectores s)
    (autovalor_dominante s) (autovector_dominante s) (cuello_botella_idx s)
    (cuello_botella_nombre s) d.

(** [self.matriz_transicion[i, j] = v] *)
Definition asignar (i j : nat) (v : Q) : metodo unit :=
  M <- ligar (leer matriz_transicion) exigir ;;
  escribir (con_matriz (Some (asignar_entrada i j v M))).

(** [construir_matriz_transicion] *)
Definition construir_matriz_transicion : metodo unit :=
  escribir (con_matriz (Some (np_zeros 6 6))) ;;;
  asignar 0 1 1 ;;;
  he <- dato "H_to_E" ;; hr <- dato "H_to_R" ;;
  let total_h := (he + hr)%Z in
  (if (0 <? total_h)%Z then
     he <- dato "H_to_E" ;; p <- elevar (py_truediv he total_h) ;; asignar 1 2 p ;;;
     hr <- dato "H_to_R" ;; p <- elevar (py_truediv hr total_h) ;; asignar 1 3 p
   else ret tt) ;;;
  ev <- dato "E_to_V" ;; er <- dato "E_to_R" ;;
  let total_e := (ev + er)%Z in
  (if (0 <? total_e)%Z then
     ev <- dato "E_to_V" ;; p <- elevar (py_truediv ev total_e) ;; asignar 2 4 p ;;;
     er <- dato "E_to_R" ;; p <- elevar (py_truediv er total_e) ;; asignar 2 3 p
   else ret tt) ;;;
  rh <- dato "R_to_H" ;; rd <- dato "R_to_D" ;;
  let total_r := (rh + rd)%Z in
  (if (0 <? total_r)%Z then
     rh <- dato "R_to_H" ;; p <- elevar (py_truediv rh total_r) ;; asignar 3 1 p ;;;
     rd <- dato "R_to_D" ;; p <- elevar (py_truediv rd total_r) ;; asignar 3 5 p
   else ret tt) ;;;
  asignar 4 4 1 ;;;
  asignar 5 5 1.

Definition valores_default : gmap string Z :=
  <["A_to_H" := 1000%Z]> (<["H_to_E" := 944%Z]> (<["H_to_R" := 56%Z]>
  (<["E_to_V" := 921%Z]> (<["E_to_R" := 23%Z]> (<["R_to_H" := 59%Z]>
  (<["R_to_D" := 20%Z]> ∅)))))).

(** [arr[idx]] with an index array (fancy indexing). *)
Fixpoint tomar {A} (l : list A) (idx : list nat) : resultado (list A) :=
  match idx with
  | [] => Ok []
  | i :: idx' =>
      match l !! i with
      | None => Raise IndexError
      | Some a =>
          match tomar l idx' with
          | Ok t => Ok (a :: t)
          | Raise e => Raise e
          end
      end
  end.

(** Lines 214-215: [v = np.abs(v); v = v / v.sum()]. *)
Definition normalizar (v : list Q) : list npfloat :=
  let a := np_abs v in
  (fun x => np_true_divide x (np_sum a)) <$> a.

(** The tolerance of the stability test. *)
Definition tolerancia : Q := 0.001.

(** What [analizar_estabilidad_sistema] gives back: the returned label and
    the percentage [perdida] that the lossy branch prints. *)
Record Informe_estabilidad : Type := mkInforme {
  estabilidad : Estabilidad;
  perdida : option Q
}.

Definition clasificar (lam : Q) : Informe_estabilidad :=
  if Qlt_le_dec (Qabs (lam - 1)) tolerancia then mkInforme ESTABLE None
  else if Qlt_le_dec lam 1 then mkInforme CON_PERDIDAS (Some ((1 - lam) * 100)%Q)
  else mkInforme INESTABLE None.

(** [analizar_estabilidad_sistema] *)
Definition analizar_estabilidad_sistema : metodo Informe_estabilidad :=
  lam <- ligar (leer autovalor_dominante) exigir ;;
  ret (clasificar lam).

(** [identificar_cuello_botella], lines 238-245: the selection and the two
    assignments.  The display loop that follows them (lines 251-260) builds
    a bar of [int(valor * 100 * 2)] characters for each of the six values:
    it raises nothing when the values lie in [0, 1], and raises, after the
    two fields are written, on a [nan], an infinity or a huge value.  The
    loop is not modelled: the outcome given here stands for the program on
    distributions with values in [0, 1]; the instance it leaves is the
    program's in every case. *)
Definition identificar_cuello_botella : metodo unit :=
  let etapas_productivas := take 4 etapas in
  v <- ligar (leer autovector_dominante) exigir ;;
  let valores_productivos := take 4 v in
  max_idx_productivo <- elevar (np_argmax valores_productivos) ;;
  escribir (con_cuello_idx (Some max_idx_productivo)) ;;;
  nombre <- indice etapas_productivas max_idx_productivo ;;
  escribir (con_cuello_nombre (Some nombre)).

(** The dictionary built by [generar_reporte], without its clock and
    constant-text entries (fecha_analisis, version, metodologia,
    recomendaciones). *)
Record Reporte : Type := mkReporte {
  r_datos_flujo : gmap string Z;
  r_cuello_botella : option string;
  r_cuello_botella_porcentaje : npfloat;
  r_autovalor_dominante : Q;
  r_distribucion_flujo : list (string * npfloat);
  r_eficiencia_general : Q;
  r_tasa_reproceso : Q;
  r_estabilidad_sistema : Estabilidad
}.

(** [generar_reporte]: the entries are evaluated in the order of the
    dictionary display. *)
Definition generar_reporte : metodo Reporte :=
  d <- leer datos_flujo ;;
  nombre <- leer cuello_botella_nombre ;;
  v <- ligar (leer autovector_dominante) exigir ;;
  i <- ligar (leer cuello_botella_idx) exigir ;;
  x <- indice v i ;;
  let porcentaje := np_por x 100 in
  lam <- ligar (leer autovalor_dominante) exigir ;;
  let distribucion := zip etapas v in
  ev <- dato "E_to_V" ;; ah <- dato "A_to_H" ;;
  ef <- elevar (py_truediv ev ah) ;;
  hr <- dato "H_to_R" ;; er <- dato "E_to_R" ;; ah <- dato "A_to_H" ;;
  tr <- elevar (py_truediv (hr + er) ah) ;;
  let est := if Qlt_le_dec (Qabs (lam - 1)) tolerancia then ESTABLE else INESTABLE in
  ret (mkReporte d nombre porcentaje lam distribucion (ef * 100)%Q (tr * 100)%Q est).

Section Solver.

(** [scipy.linalg.eig] followed by [np.real]: the real parts of the
    eigenvalues and, by columns, of the eigenvectors; or the exception the
    solver raises. *)
Variable linalg_eig : matriz → resultado (list Q * list (list Q)).

(** [np.argsort] on a one-dimensional array. *)
Variable np_argsort : list Q → list nat.

(** [calcular_autovalores_scipy].  The three successive assignments to
    [self.autovector_dominante] (column, absolute value, quotient) are one
    update: nothing between them can raise. *)
Definition calcular_autovalores_scipy : metodo unit :=
  M <- leer matriz_transicion ;;
  M <- match M with Some M => ret M | None => lanzar ValueError end ;;
  dec <- elevar (linalg_eig M) ;;
  escribir (con_autovalores (Some dec.1)) ;;;
  escribir (con_autovectores (Some dec.2)) ;;;
  w <- ligar (leer autovalores) exigir ;;
  let idx := reverse (np_argsort (np_abs w)) in
  w' <- elevar (tomar w idx) ;;
  escribir (con_autovalores (Some w')) ;;;
  cols <- ligar (leer autovectores) exigir ;;
  cols' <- elevar (tomar cols idx) ;;
  escribir (con_autovectores (Some cols')) ;;;
  w <- ligar (leer autovalores) exigir ;;
  lam <- indice w 0 ;;
  escribir (con_autovalor_dominante (Some lam)) ;;;
  cols <- ligar (leer autovectores) exigir ;;
  v <- indice cols 0 ;;
  escribir (con_autovector_dominante (Some (normalizar v))).

(** The core steps of [main], in its order, on an instance whose flow data
    are already entered. *)
Definition analisis : metodo Informe_estabilidad :=
  construir_matriz_transicion ;;;
  calcular_autovalores_scipy ;;;
  inf <- analizar_estabilidad_sistema ;;
  identificar_cuello_botella ;;;
  ret inf.

End Solver.

(** ** The flow record as the specification reads it *)

(** The key under which the count of the flow from state [i] to state [j]
    is recorded, for the pairs that have one. *)
Definition clave_flujo (i j : nat) : option string :=
  match i, j with
  | 0, 1 => Some "A_to_H"
  | 1, 2 => Some "H_to_E"
  | 1, 3 => Some "H_to_R"
  | 2, 4 => Some "E_to_V"
  | 2, 3 => Some "E_to_R"
  | 3, 1 => Some "R_to_H"
  | 3, 5 => Some "R_to_D"
  | _, _ => None
  end.

(** [count(i, j)], zero where nothing is recorded. *)
Definition cuenta (d : gmap string Z) (i j : nat) : Z :=
  match clave_flujo i j with
  | Some k => default 0%Z (d !! k)
  | None => 0%Z
  end.

(** [total(i)]: the sum of the counts out of state [i]. *)
Definition total (d : gmap string Z) (i : nat) : Z :=
  foldr Z.add 0%Z (cuenta d i <$> seq 0 6).

(** The six counts read by the matrix builder. *)
Definition claves_matriz : list string :=
  ["H_to_E"; "H_to_R"; "E_to_V"; "E_to_R"; "R_to_H"; "R_to_D"].

(** A row of [np.zeros((6, 6))]. *)
Definition fila_cero : list Q := replicate 6 0%Q.

(** Closed form of the row that the builder leaves for a state with the two
    recorded destinations [ja] and [jb] (lemma [construir_eval]). *)
Definition fila_de (a b : Z) (ja jb : nat) : list Q :=
  if (0 <? a + b)%Z then
    <[jb := (inject_Z b / inject_Z (a + b))%Q]>
      (<[ja := (inject_Z a / inject_Z (a + b))%Q]> fila_cero)
  else fila_cero.

(** Closed form of the matrix that the builder returns on the six counts
    (lemma [construir_eval]). *)
Definition matriz_de (he hr ev er rh rd : Z) : matriz :=
  [ [0; 1; 0; 0; 0; 0]%Q;
    fila_de he hr 2 3;
    fila_de ev er 4 3;
    fila_de rh rd 1 5;
    [0; 0; 0; 0; 1; 0]%Q;
    [0; 0; 0; 0; 0; 1]%Q ].

(** ** Definitions used by the statements *)

(** The flow data hold the six counts that the matrix builder reads. *)
Definition datos_completos (d : gmap string Z) : Prop :=
  ∀ k, k ∈ claves_matriz → is_Some (d !! k).


(** The tolerance on row sums and on the sum of a distribution. *)
Definition tolerancia_fila : Q := 1 # 1000000000.

(** Flow data of a run in which Horneado has no outgoing flow at all. *)
Definition datos_sin_horneado : gmap string Z :=
  <["H_to_E" := 0%Z]> (<["H_to_R" := 0%Z]> valores_default).

(** Flow data with a negative count. *)
Definition datos_negativos : gmap string Z :=
  <["H_to_R" := (-1)%Z]> valores_default.

(** An instance after an analysis whose dominant eigenvalue is 0.95. *)
Definition estado_con_perdidas : Detector :=
  {| matriz_transicion := Some (matriz_de 944 56 921 23 59 20);
     autovalores := Some [0.95; 0.5]%Q;
     autovectores := Some [[1; 4; 3; 2; 0; 0]; [0; 0; 0; 0; 1; 0]]%Q;
     autovalor_dominante := Some 0.95%Q;
     autovector_dominante :=
       Some [Num 0.1; Num 0.4; Num 0.3; Num 0.2; Num 0; Num 0];
     cuello_botella_idx := Some 1;
     cuello_botella_nombre := Some "Horneado";
     datos_flujo := valores_default |}.

(** A distribution whose largest value sits on Venta and whose productive
    maximum is reached twice. *)
Definition distribucion_ejemplo : list Q := [0.1; 0.2; 0.2; 0; 0.5; 0]%Q.

(** The instance after [calcular_autovalores_scipy] has returned. *)
Definition tras_calcular (w ws : list Q) (cols vs : list (list Q))
    (lam : Q) (v : list Q) (s : Detector) : Detector :=
  con_autovector_dominante (Some (normalizar v))
    (con_autovalor_dominante (Some lam)
       (con_autovectores (Some (v :: vs))
          (con_autovalores (Some (lam :: ws))
             (con_autovectores (Some cols) (con_autovalores (Some w) s))))).

(** A solver answer with two pairs, the larger eigenvalue second. *)
Definition eig_ejemplo : matriz → resultado (list Q * list (list Q)) :=
  λ _, Ok ([0.5; 1]%Q, [[0; 0; 0; 0; 1; 0]; [-1; 4; -3; 2; 0; 0]]%Q).

(** A solver answer whose top eigenvector is null. *)
Definition eig_nulo : matriz → resultado (list Q * list (list Q)) :=
  λ _, Ok ([1]%Q, [[0; 0; 0; 0; 0; 0]]%Q).

(** An ascending [argsort] for arrays of at most two elements, which is all
    the examples need. *)
Definition argsort_ejemplo (l : list Q) : list nat :=
  match l with
  | [a; b] => if Qle_bool a b then [0; 1] else [1; 0]
  | _ => seq 0 (length l)
  end.

(** An instance that holds the reference data and their matrix. *)
Definition estado_con_matriz : Detector :=
  con_matriz (Some (matriz_de 944 56 921 23 59 20)) (con_datos valores_default init).

(** Two instances that agree everywhere except, possibly, on the count
    recorded under [A_to_H]. *)
Definition salvo_A_to_H (s1 s2 : Detector) : Prop :=
  matriz_transicion s1 = matriz_transicion s2 ∧
  autovalores s1 = autovalores s2 ∧
  autovectores s1 = autovectores s2 ∧
  autovalor_dominante s1 = autovalor_dominante s2 ∧
  autovector_dominante s1 = autovector_dominante s2 ∧
  cuello_botella_idx s1 = cuello_botella_idx s2 ∧
  cuello_botella_nombre s1 = cuello_botella_nombre s2 ∧
  ∀ k, k ≠ "A_to_H" → datos_flujo s1 !! k = datos_flujo s2 !! k.

(** A method that cannot tell such instances apart. *)
Definition respeta {A} (m : metodo A) : Prop :=
  ∀ s1 s2, salvo_A_to_H s1 s2 →
    fst (m s1) = fst (m s2) ∧ salvo_A_to_H (snd (m s1)) (snd (m s2)).

(** The reference data with no unit entering Amasado. *)
Definition datos_sin_entrada : gmap string Z := <["A_to_H" := 0%Z]> valores_default.

(** Flow data, with one negative count, whose matrix has the real
    eigenvalue -2. *)
Definition datos_ciclo_negativo : gmap string Z :=
  <["A_to_H" := 1000%Z]> (<["H_to_E" := 1%Z]> (<["H_to_R" := 0%Z]>
  (<["E_to_V" := 9%Z]> (<["E_to_R" := (-8)%Z]> (<["R_to_H" := 1%Z]>
  (<["R_to_D" := 0%Z]> ∅)))))).

(** [M @ v] for a matrix given by rows. *)
Definition mat_vec (M : matriz) (v : list Q) : list Q :=
  (λ fila, np_sum (zip_with Qmult fila v)) <$> M.

(** A solver answer for the matrix of [datos_ciclo_negativo], reduced to the
    pair of the eigenvalue -2 and the pair of the eigenvalue 1 carried by
    Venta. *)
Definition eig_ciclo : matriz → resultado (list Q * list (list Q)) :=
  λ _, Ok ([1; -2]%Q, [[0; 0; 0; 0; 1; 0]; [-0.5; 1; -2; -0.5; 0; 0]]%Q).

(** ** The remaining methods *)

(** What the user answers to one prompt of [ingresar_datos_flujo], as the
    expression [int(val) if val.strip() else default] sees it: a blank line,
    a line that [int] accepts, or a line on which [int] raises ValueError. *)
Inductive Respuesta : Type :=
  | Vacia
  | Entero (z : Z)
  | Invalida.

(** [self.datos_flujo[k] = v] *)
Definition guardar_dato (k : string) (v : Z) : metodo unit :=
  escribir (λ s, con_datos (<[k := v]> (datos_flujo s)) s).

(** One prompt: [val = input(...)] answered by [r], then the assignment of
    [int(val) if val.strip() else valores_default[k]]. *)
Definition preguntar (r : Respuesta) (k : string) : metodo unit :=
  match r with
  | Vacia =>
      match valores_default !! k with
      | Some v => guardar_dato k v
      | None => lanzar (KeyError k)
      end
  | Entero z => guardar_dato k z
  | Invalida => lanzar ValueError
  end.

(** [try: cuerpo except ValueError: manejador] *)
Definition except_ValueError {A} (cuerpo manejador : metodo A) : metodo A :=
  λ s, match cuerpo s with
       | (Raise ValueError, s') => manejador s'
       | otro => otro
       end.

(** The values printed by [_mostrar_resumen_flujo]. *)
Record Resumen : Type := mkResumen {
  total_entrada : Z;
  total_salida : Z;
  total_reproceso : Z;
  total_descarte : Z;
  eficiencia : Q
}.

(** [_mostrar_resumen_flujo] *)
Definition _mostrar_resumen_flujo : metodo Resumen :=
  te <- dato "A_to_H" ;;
  ts <- dato "E_to_V" ;;
  hr <- dato "H_to_R" ;; er <- dato "E_to_R" ;;
  td <- dato "R_to_D" ;;
  q <- elevar (py_truediv ts te) ;;
  ret (mkResumen te ts (hr + er) td (q * 100)%Q).

(** [ingresar_datos_flujo]; [consola n] is the answer to the n-th prompt
    (the console is assumed to answer every prompt). *)
Definition ingresar_datos_flujo (consola : nat → Respuesta) : metodo Resumen :=
  escribir (con_datos ∅) ;;;
  except_ValueError
    (preguntar (consola 0) "A_to_H" ;;;
     preguntar (consola 1) "H_to_E" ;;;
     preguntar (consola 2) "H_to_R" ;;;
     preguntar (consola 3) "E_to_V" ;;;
     preguntar (consola 4) "E_to_R" ;;;
     preguntar (consola 5) "R_to_H" ;;;
     preguntar (consola 6) "R_to_D")
    (escribir (con_datos valores_default)) ;;;
  _mostrar_resumen_flujo.

(** [np.allclose(a, b)] with its default tolerances, on finite values. *)
Definition np_allclose (a : list Q) (b : Q) : bool :=
  forallb (λ x, Qle_bool (Qabs (x - b)) ((1 # 100000000) + (1 # 100000) * Qabs b)) a.

(** [_mostrar_matriz]: the value of the printed verification
    [np.allclose(np.sum(M, axis=1), 1.0)].  The builder calls it as its last
    statement, once the matrix is complete; it only prints. *)
Definition _mostrar_matriz : metodo bool :=
  M <- ligar (leer matriz_transicion) exigir ;;
  let sumas_filas := np_sum <$> M in
  ret (np_allclose sumas_filas 1).

(** The lines of [generar_recomendaciones], by kind, with the values that
    their text embeds (the text itself and its number format are not
    modelled). *)
Inductive Recomendacion : Type :=
  | PrioridadAlta (nombre : option string)
  | AumentarCapacidad (nombre : option string)
  | ControlesCalidad
  | CapacitarPersonal (nombre : option string)
  | MejorarEficiencia (eficiencia : Q)
  | RevisarProcesos
  | ReducirReproceso (tasa : Q)
  | InspeccionRigurosa
  | MonitoreoKPI
  | AnalisisPeriodico.

(** [generar_recomendaciones] *)
Definition generar_recomendaciones : metodo (list Recomendacion) :=
  n <- leer cuello_botella_nombre ;;
  let recomendaciones :=
    [PrioridadAlta n; AumentarCapacidad n; ControlesCalidad; CapacitarPersonal n] in
  total_inicial <- dato "A_to_H" ;;
  total_final <- dato "E_to_V" ;;
  q <- elevar (py_truediv total_final total_inicial) ;;
  let eficiencia := (q * 100)%Q in
  let recomendaciones :=
    if Qlt_le_dec eficiencia 90
    then (recomendaciones ++ [MejorarEficiencia eficiencia; RevisarProcesos])%list
    else recomendaciones in
  hr <- dato "H_to_R" ;; er <- dato "E_to_R" ;;
  q <- elevar (py_truediv (hr + er) total_inicial) ;;
  let tasa_reproceso := (q * 100)%Q in
  let recomendaciones :=
    if Qlt_le_dec 5 tasa_reproceso
    then (recomendaciones ++ [ReducirReproceso tasa_reproceso; InspeccionRigurosa])%list
    else recomendaciones in
  ret (recomendaciones ++ [MonitoreoKPI; AnalisisPeriodico])%list.

(** How [main] ends: the final banner, or the message of its
    [except Exception] handler. *)
Inductive Fin_main : Type :=
  | AnalisisCompletado
  | ErrorDuranteAnalisis (e : excepcion).

Section Main.

Variable linalg_eig : matriz → resultado (list Q * list (list Q)).
Variable np_argsort : list Q → list nat.

(** [crear_visualizaciones] draws and saves charts; it is a parameter. *)
Variable crear_visualizaciones : metodo unit.

Variable consola : nat → Respuesta.

(** [main]: how it ends, and the instance it leaves. *)
Definition main : Fin_main * Detector :=
  let cuerpo :=
    ingresar_datos_flujo consola ;;;
    construir_matriz_transicion ;;;
    calcular_autovalores_scipy linalg_eig np_argsort ;;;
    analizar_estabilidad_sistema ;;;
    identificar_cuello_botella ;;;
    generar_recomendaciones ;;;
    crear_visualizaciones ;;;
    generar_reporte ;;;
    ret tt in
  match cuerpo init with
  | (Ok _, s) => (AnalisisCompletado, s)
  | (Raise e, s) => (ErrorDuranteAnalisis e, s)
  end.

End Main.

(** The answer recorded for one prompt, when there is one. *)
Definition valor_ingresado (r : Respuesta) (k : string) : option Z :=
  match r with
  | Vacia => valores_default !! k
  | Entero z => Some z
  | Invalida => None
  end.

(** The prompts, in order. *)
Definition claves_flujo : list string :=
  ["A_to_H"; "H_to_E"; "H_to_R"; "E_to_V"; "E_to_R"; "R_to_H"; "R_to_D"].

(** The dictionary that seven accepted answers leave, filled in the order
    of the prompts; [None] as soon as one answer is invalid. *)
Definition datos_respondidos (consola : nat → Respuesta) : option (gmap string Z) :=
  v0 ← valor_ingresado (consola 0) "A_to_H";
  v1 ← valor_ingresado (consola 1) "H_to_E";
  v2 ← valor_ingresado (consola 2) "H_to_R";
  v3 ← valor_ingresado (consola 3) "E_to_V";
  v4 ← valor_ingresado (consola 4) "E_to_R";
  v5 ← valor_ingresado (consola 5) "R_to_H";
  v6 ← valor_ingresado (consola 6) "R_to_D";
  Some (<["R_to_D" := v6]> (<["R_to_H" := v5]> (<["E_to_R" := v4]>
       (<["E_to_V" := v3]> (<["H_to_R" := v2]> (<["H_to_E" := v1]>
       (<["A_to_H" := v0]> ∅))))))).

(** The flow data with which [ingresar_datos_flujo] ends. *)
Definition datos_finales (consola : nat → Respuesta) : gmap string Z :=
  default valores_default (datos_respondidos consola).

(** A console that accepts every default. *)
Definition consola_vacia : nat → Respuesta := λ _, Vacia.

(** A console whose fourth answer is not a number. *)
Definition consola_con_error : nat → Respuesta :=
  λ n, match n with 3 => Invalida | _ => Entero 7 end.

(** A console that declares no unit entering Amasado. *)
Definition consola_sin_entrada : nat → Respuesta :=
  λ n, match n with 0 => Entero 0 | _ => Vacia end.

(** A method that leaves the instance as it found it, however it ends. *)
Definition solo_lee {A} (m : metodo A) : Prop := ∀ s, snd (m s) = s.

(** An analysed instance whose flow data lost the count [R_to_H]. *)
Definition estado_con_perdidas_sin_R_to_H : Detector :=
  con_datos (delete "R_to_H" valores_default) estado_con_perdidas.

(** A method that never changes the field [campo], however it ends. *)
Definition conserva {A B} (campo : Detector → B) (m : metodo A) : Prop :=
  ∀ s, campo (snd (m s)) = campo s.

(** What [np.argsort] promises on the keys [claves]: a permutation of the
    positions that lists the keys in ascending order. *)
Definition orden_ascendente (claves : list Q) (idx : list nat) : Prop :=
  idx ≡ₚ seq 0 (List.length claves) ∧
  ∀ i j a b : nat, (i ≤ j)%nat → idx !! i = Some a → idx !! j = Some b →
                   (nth a claves 0 <= nth b claves 0)%Q.

(** ** The float range *)

(** A bound on the magnitude of a count under which no division of the
    program can leave the float range: the quotient of [a] by a nonzero
    integer has at most the magnitude of [a], and binary64 reaches
    1.7e308. *)
Definition cota_flujo : Z := (10 ^ 300)%Z.

(** The counts recorded under [claves] are all within the bound. *)
Definition acotados (claves : list string) (d : gmap string Z) : Prop :=
  ∀ k v, k ∈ claves → d !! k = Some v → (Z.abs v <= cota_flujo)%Z.

(** Every count of the dict is within the bound (so that, besides, each is
    an integer of few enough digits to be printed and written out). *)
Definition todos_acotados (d : gmap string Z) : Prop :=
  map_Forall (λ _ v, (Z.abs v <= cota_flujo)%Z) d.

(** None of the counts read by the matrix builder is negative. *)
Definition sin_negativos (d : gmap string Z) : Prop :=
  ∀ k v, k ∈ claves_matriz → d !! k = Some v → (0 <= v)%Z.

(** What the specification rejects: a productive state whose total outgoing
    flow is not positive, or a negative count. *)
Definition entrada_degenerada (d : gmap string Z) : Prop :=
  (∃ i, i < 4 ∧ (total d i <= 0)%Z) ∨ (∃ k v, d !! k = Some v ∧ (v < 0)%Z).

(** ** binary64

    IEEE 754 double precision, as the Standard Library specifies it
    ([SpecFloat], precision 53, exponent bound 1024, rounding to nearest
    with ties to even). *)

Definition binary64 : Type := spec_float.

Definition b64_add : binary64 → binary64 → binary64 := SFadd 53 1024.
Definition b64_sub : binary64 → binary64 → binary64 := SFsub 53 1024.
Definition b64_mul : binary64 → binary64 → binary64 := SFmul 53 1024.
Definition b64_div : binary64 → binary64 → binary64 := SFdiv 53 1024.
Definition b64_abs : binary64 → binary64 := SFabs.
Definition b64_ltb : binary64 → binary64 → bool := SFltb.
Definition b64_leb : binary64 → binary64 → bool := SFleb.

(** An integer as an exact operand, before any rounding. *)
Definition b64_entero (z : Z) : binary64 :=
  match z with
  | Z0 => S754_zero false
  | Zpos p => S754_finite false p 0
  | Zneg p => S754_finite true p 0
  end.

(** The float that a decimal literal denotes, the literal being given as the
    fraction [n / d] (0.001 is [b64_literal 1 1000]): the binary64 value
    nearest to it. *)
Definition b64_literal (n d : Z) : binary64 :=
  b64_div (b64_entero n) (b64_entero d).

(** The rational that a finite float holds. *)
Definition b64_valor (x : binary64) : option Q :=
  match x with
  | S754_zero _ => Some 0%Q
  | S754_finite s m e =>
      let z := if s then Zneg m else Zpos m in
      Some (match e with
            | Zneg p => Qmake z (2 ^ p)
            | _ => inject_Z (z * 2 ^ e)
            end)
  | S754_infinity _ | S754_nan => None
  end.

(** [a / b] of Python on two [int], as CPython computes it: the quotient of
    the two integers rounded once to binary64, OverflowError when the
    rounded quotient is beyond the float range. *)
Definition py_truediv_binary64 (a b : Z) : resultado binary64 :=
  if (b =? 0)%Z then Raise ZeroDivisionError
  else match b64_div (b64_entero a) (b64_entero b) with
       | S754_infinity _ => Raise OverflowError
       | q => Ok q
       end.

Definition matriz_binary64 : Type := list (list binary64).

Definition asignar_entrada_binary64 (i j : nat) (v : binary64)
    (M : matriz_binary64) : matriz_binary64 :=
  alter (fun fila => <[j := v]> fila) i M.

(** [d[k]] on a dict. *)
Definition buscar (d : gmap string Z) (k : string) : resultado Z :=
  match d !! k with Some v => Ok v | None => Raise (KeyError k) end.

Definition luego {A B} (r : resultado A) (k : A → resultado B) : resultado B :=
  match r with Ok a => k a | Raise e => Raise e end.

Declare Scope resultado_scope.
Delimit Scope resultado_scope with resultado.
Notation "x <~ r ;; k" := (luego r (λ x, k))
  (at level 100, r at next level, right associativity) : resultado_scope.

(** [construir_matriz_transicion] on the flow data [d], with the entries in
    binary64: the matrix that the instance holds when the builder returns,
    or the exception that it raises. *)
Definition construir_matriz_binary64 (d : gmap string Z) : resultado matriz_binary64 :=
  (let M := replicate 6 (replicate 6 (S754_zero false)) in
   let M := asignar_entrada_binary64 0 1 (b64_literal 1 1) M in
   he <~ buscar d "H_to_E" ;; hr <~ buscar d "H_to_R" ;;
   let total_h := (he + hr)%Z in
   M <~ (if (0 <? total_h)%Z then
           he <~ buscar d "H_to_E" ;; p <~ py_truediv_binary64 he total_h ;;
           let M := asignar_entrada_binary64 1 2 p M in
           hr <~ buscar d "H_to_R" ;; p <~ py_truediv_binary64 hr total_h ;;
           Ok (asignar_entrada_binary64 1 3 p M)
         else Ok M) ;;
   ev <~ buscar d "E_to_V" ;; er <~ buscar d "E_to_R" ;;
   let total_e := (ev + er)%Z in
   M <~ (if (0 <? total_e)%Z then
           ev <~ buscar d "E_to_V" ;; p <~ py_truediv_binary64 ev total_e ;;
           let M := asignar_entrada_binary64 2 4 p M in
           er <~ buscar d "E_to_R" ;; p <~ py_truediv_binary64 er total_e ;;
           Ok (asignar_entrada_binary64 2 3 p M)
         else Ok M) ;;
   rh <~ buscar d "R_to_H" ;; rd <~ buscar d "R_to_D" ;;
   let total_r := (rh + rd)%Z in
   M <~ (if (0 <? total_r)%Z then
           rh <~ buscar d "R_to_H" ;; p <~ py_truediv_binary64 rh total_r ;;
           let M := asignar_entrada_binary64 3 1 p M in
           rd <~ buscar d "R_to_D" ;; p <~ py_truediv_binary64 rd total_r ;;
           Ok (asignar_entrada_binary64 3 5 p M)
         else Ok M) ;;
   let M := asignar_entrada_binary64 4 4 (b64_literal 1 1) M in
   Ok (asignar_entrada_binary64 5 5 (b64_literal 1 1) M))%resultado.

(** The sum of one row, as [np.sum(M, axis=1)] computes it: the additions
    are made in sequence, each one rounded. *)
Definition np_sum_binary64 (fila : list binary64) : binary64 :=
  foldl b64_add (S754_zero false) fila.

(** The tests of [analizar_estabilidad_sistema] (lines 275-291) on a
    binary64 eigenvalue: the label, and the percentage that the lossy branch
    prints. *)
Definition clasificar_binary64 (lam : binary64) : Estabilidad * option binary64 :=
  if b64_ltb (b64_abs (b64_sub lam (b64_literal 1 1))) (b64_literal 1 1000)
  then (ESTABLE, None)
  else if b64_ltb lam (b64_literal 1 1)
  then (CON_PERDIDAS,
        Some (b64_mul (b64_sub (b64_literal 1 1) lam) (b64_literal 100 1)))
  else (INESTABLE, None).

(** Flow data whose Horneado counts cancel beyond the 53 bits of a float:
    every total is positive, and H_to_R is negative. *)
Definition datos_cancelacion : gmap string Z :=
  <["H_to_E" := (10 ^ 17 + 1)%Z]> (<["H_to_R" := (- 10 ^ 17)%Z]> valores_default).

(** ** Evaluation of methods *)

Lemma ligar_asoc {A B C} (m : metodo A) (f : A → metodo B) (g : B → metodo C) s :
  ligar (ligar m f) g s = ligar m (λ x, ligar (f x) g) s.
Proof. unfold ligar. now destruct (m s) as [[a|e] s']. Qed.

Lemma ligar_ok {A B} (m : metodo A) (k : A → metodo B) s a s' :
  m s = (Ok a, s') → ligar m k s = k a s'.
Proof. intros H. unfold ligar. now rewrite H. Qed.

Lemma ligar_raise {A B} (m : metodo A) (k : A → metodo B) s e s' :
  m s = (Raise e, s') → ligar m k s = (Raise e, s').
Proof. intros H. unfold ligar. now rewrite H. Qed.

Lemma dato_eval (k : string) (v : Z) (s : Detector) :
  datos_flujo s !! k = Some v → dato k s = (Ok v, s).
Proof. intros H. unfold dato, ligar, leer. now rewrite H. Qed.

Lemma asignar_eval (i j : nat) (v : Q) (M : matriz) (s : Detector) :
  matriz_transicion s = Some M →
  asignar i j v s = (Ok tt, con_matriz (Some (asignar_entrada i j v M)) s).
Proof. intros H. unfold asignar, ligar, leer, exigir, escribir. now rewrite H. Qed.

Lemma truediv_pos (a b : Z) :
  (0 <? b)%Z = true → py_truediv a b = Ok (inject_Z a / inject_Z b)%Q.
Proof.
  intros Hb. unfold py_truediv.
  destruct (Z.eqb_spec b 0) as [->|]; [discriminate Hb | reflexivity].
Qed.

(** One step of symbolic execution of a method applied to a state. *)
Ltac paso :=
  first
    [ rewrite ligar_asoc
    | erewrite (ligar_ok (dato _)) by (apply dato_eval; eassumption)
    | erewrite (ligar_ok (asignar _ _ _)) by (apply asignar_eval; reflexivity)
    | erewrite (ligar_ok (escribir _)) by reflexivity
    | erewrite (ligar_ok (elevar (Ok _))) by reflexivity
    | erewrite (ligar_ok (ret _)) by reflexivity
    | erewrite (ligar_ok (leer _)) by reflexivity
    | erewrite (ligar_ok (exigir (Some _))) by reflexivity
    | erewrite asignar_eval by reflexivity ].

Ltac pasos := first [ paso | rewrite truediv_pos by eassumption ].

(** Reading a field of an instance that was just updated. *)
Ltac proyectar :=
  progress
    cbn [matriz_transicion autovalores autovectores autovalor_dominante
         autovector_dominante cuello_botella_idx cuello_botella_nombre
         datos_flujo con_matriz con_autovalores con_autovectores
         con_autovalor_dominante con_autovector_dominante con_cuello_idx
         con_cuello_nombre con_datos fst snd].

Lemma dato_falta (k : string) (s : Detector) :
  datos_flujo s !! k = None → dato k s = (Raise (KeyError k), s).
Proof. intros H. unfold dato, ligar, leer. now rewrite H. Qed.

(** A step that raises: the method cannot have returned. *)
Ltac falla :=
  first
    [ erewrite (ligar_raise (dato _)) by (apply dato_falta; eassumption)
    | erewrite ligar_raise by reflexivity ];
  intros [=].

Lemma construir_eval (s : Detector) (he hr ev er rh rd : Z) :
  datos_flujo s !! "H_to_E" = Some he →
  datos_flujo s !! "H_to_R" = Some hr →
  datos_flujo s !! "E_to_V" = Some ev →
  datos_flujo s !! "E_to_R" = Some er →
  datos_flujo s !! "R_to_H" = Some rh →
  datos_flujo s !! "R_to_D" = Some rd →
  construir_matriz_transicion s
  = (Ok tt, con_matriz (Some (matriz_de he hr ev er rh rd)) s).
Proof.
  intros Hhe Hhr Hev Her Hrh Hrd.
  unfold construir_matriz_transicion, matriz_de, fila_de.
  do 4 paso.
  destruct (0 <? he + hr)%Z eqn:Hh; repeat pasos;
    (destruct (0 <? ev + er)%Z eqn:He); repeat pasos;
    (destruct (0 <? rh + rd)%Z eqn:Hr); repeat pasos;
    destruct s; reflexivity.
Qed.

(** ** Facts on rows and totals *)

Lemma datos_completos_inv (d : gmap string Z) :
  datos_completos d →
  ∃ he hr ev er rh rd,
    d !! "H_to_E" = Some he ∧ d !! "H_to_R" = Some hr ∧
    d !! "E_to_V" = Some ev ∧ d !! "E_to_R" = Some er ∧
    d !! "R_to_H" = Some rh ∧ d !! "R_to_D" = Some rd.
Proof.
  intros H.
  destruct (H "H_to_E") as [he Hhe]; [set_solver|].
  destruct (H "H_to_R") as [hr Hhr]; [set_solver|].
  destruct (H "E_to_V") as [ev Hev]; [set_solver|].
  destruct (H "E_to_R") as [er Her]; [set_solver|].
  destruct (H "R_to_H") as [rh Hrh]; [set_solver|].
  destruct (H "R_to_D") as [rd Hrd]; [set_solver|].
  now exists he, hr, ev, er, rh, rd.
Qed.

Lemma total_H (d : gmap string Z) he hr :
  d !! "H_to_E" = Some he → d !! "H_to_R" = Some hr → total d 1 = (he + hr)%Z.
Proof. intros H1 H2. unfold total, cuenta. cbn. rewrite H1, H2. cbn. lia. Qed.

Lemma total_E (d : gmap string Z) ev er :
  d !! "E_to_V" = Some ev → d !! "E_to_R" = Some er → total d 2 = (ev + er)%Z.
Proof. intros H1 H2. unfold total, cuenta. cbn. rewrite H1, H2. cbn. lia. Qed.

Lemma total_R (d : gmap string Z) rh rd :
  d !! "R_to_H" = Some rh → d !! "R_to_D" = Some rd → total d 3 = (rh + rd)%Z.
Proof. intros H1 H2. unfold total, cuenta. cbn. rewrite H1, H2. cbn. lia. Qed.


Lemma fila_de_pos (a b : Z) (ja jb : nat) :
  (0 < a + b)%Z →
  fila_de a b ja jb
  = <[jb := (inject_Z b / inject_Z (a + b))%Q]>
      (<[ja := (inject_Z a / inject_Z (a + b))%Q]> fila_cero).
Proof.
  intros H. unfold fila_de.
  destruct (Z.ltb_spec 0 (a + b)); [reflexivity | lia].
Qed.

Lemma fila_de_nopos (a b : Z) (ja jb : nat) :
  (a + b <= 0)%Z → fila_de a b ja jb = fila_cero.
Proof.
  intros H. unfold fila_de.
  destruct (Z.ltb_spec 0 (a + b)); [lia | reflexivity].
Qed.

Lemma inject_Z_total_pos (a b : Z) :
  (0 < a + b)%Z → ¬ (inject_Z (a + b) == 0)%Q.
Proof.
  intros H Heq. apply (inject_Z_injective (a + b) 0) in Heq. lia.
Qed.


Lemma suma_cocientes (a b : Z) :
  (0 < a + b)%Z →
  (inject_Z a / inject_Z (a + b) + inject_Z b / inject_Z (a + b) == 1)%Q.
Proof.
  intros H. pose proof (inject_Z_total_pos a b H) as Hne.
  rewrite inject_Z_plus in *. field. exact Hne.
Qed.

(** ** The transition matrix builder *)


Lemma fila_de_suma (a b : Z) (ja jb : nat) :
  (0 < a + b)%Z → (ja, jb) ∈ [(2, 3); (4, 3); (1, 5)] →
  (np_sum (fila_de a b ja jb) == 1)%Q.
Proof.
  intros H Hj. rewrite fila_de_pos by exact H.
  pose proof (suma_cocientes a b H) as Hs.
  repeat (apply elem_of_cons in Hj as [[= -> ->]|Hj]); [| | |inversion Hj];
    cbn; lra.
Qed.

Lemma cerca_de_uno (q : Q) : (q == 1)%Q → (Qabs (q - 1) <= tolerancia_fila)%Q.
Proof.
  intros H. rewrite H. unfold tolerancia_fila. vm_compute. discriminate.
Qed.

(** C5, amended. When the six counts are present, none of them is negative
    and the total outgoing flow of every productive state is positive, each
    row of the built matrix sums to 1, hence to 1 within 1e-9.  (Each
    quotient is then a share between 0 and 1, which rounding moves by less
    than 1e-15.) *)
Theorem C5_filas_suman_uno (s : Detector) :
  datos_completos (datos_flujo s) →
  sin_negativos (datos_flujo s) →
  (∀ i, i < 4 → (0 < total (datos_flujo s) i)%Z) →
  ∃ M, construir_matriz_transicion s = (Ok tt, con_matriz (Some M) s) ∧
       length M = 6 ∧
       ∀ fila, fila ∈ M →
         (np_sum fila == 1)%Q ∧ (Qabs (np_sum fila - 1) <= tolerancia_fila)%Q.
Proof.
  intros Hd _ Ht.
  destruct (datos_completos_inv _ Hd)
    as (he & hr & ev & er & rh & rd & Hhe & Hhr & Hev & Her & Hrh & Hrd).
  pose proof (Ht 1 ltac:(lia)) as H1. rewrite (total_H _ _ _ Hhe Hhr) in H1.
  pose proof (Ht 2 ltac:(lia)) as H2. rewrite (total_E _ _ _ Hev Her) in H2.
  pose proof (Ht 3 ltac:(lia)) as H3. rewrite (total_R _ _ _ Hrh Hrd) in H3.
  exists (matriz_de he hr ev er rh rd).
  split; [now apply construir_eval|]. split; [reflexivity|].
  intros fila Hf.
  assert (np_sum fila == 1)%Q as Hs.
  { unfold matriz_de in Hf.
    repeat (apply elem_of_cons in Hf as [->|Hf]); [| | | | | |inversion Hf].
    - reflexivity.
    - apply fila_de_suma; [exact H1|set_solver].
    - apply fila_de_suma; [exact H2|set_solver].
    - apply fila_de_suma; [exact H3|set_solver].
    - reflexivity.
    - reflexivity. }
  split; [exact Hs | now apply cerca_de_uno].
Qed.

Lemma valores_default_completos : datos_completos valores_default.
Proof.
  intros k Hk. unfold claves_matriz in Hk.
  repeat (apply elem_of_cons in Hk as [->|Hk]); [| | | | | |inversion Hk];
    vm_compute; eauto.
Qed.

Lemma datos_sin_horneado_completos : datos_completos datos_sin_horneado.
Proof.
  intros k Hk. unfold claves_matriz in Hk.
  repeat (apply elem_of_cons in Hk as [->|Hk]); [| | | | | |inversion Hk];
    vm_compute; eauto.
Qed.

Lemma valores_default_acotados : acotados claves_matriz valores_default.
Proof.
  intros k v Hk. unfold claves_matriz in Hk.
  repeat (apply elem_of_cons in Hk as [->|Hk]); [..|inversion Hk];
    intros Hv; vm_compute in Hv; injection Hv as <-; vm_compute; discriminate.
Qed.

Lemma valores_default_todos_acotados : todos_acotados valores_default.
Proof.
  unfold todos_acotados, valores_default.
  repeat (apply map_Forall_insert_2; [vm_compute; discriminate|]).
  apply map_Forall_empty.
Qed.

Lemma valores_default_sin_negativos : sin_negativos valores_default.
Proof.
  intros k v Hk. unfold claves_matriz in Hk.
  repeat (apply elem_of_cons in Hk as [->|Hk]); [..|inversion Hk];
    intros Hv; vm_compute in Hv; injection Hv as <-; discriminate.
Qed.

(** C2, as the code behaves: on flow data in which Horneado has zero total
    outgoing flow the builder raises nothing and returns a matrix whose
    Horneado row is all-zero; on flow data with a negative count it raises
    nothing either. *)
Lemma C2_no_rechaza :
  total datos_sin_horneado 1 = 0%Z ∧
  (∃ M, construir_matriz_transicion (con_datos datos_sin_horneado init)
        = (Ok tt, con_matriz (Some M) (con_datos datos_sin_horneado init)) ∧
        M !! 1 = Some [0; 0; 0; 0; 0; 0]%Q) ∧
  datos_negativos !! "H_to_R" = Some (-1)%Z ∧
  fst (construir_matriz_transicion (con_datos datos_negativos init)) = Ok tt.
Proof.
  split; [reflexivity|]. split.
  - exists (matriz_de 0 0 921 23 59 20). split; [|reflexivity].
    now apply construir_eval.
  - split; [reflexivity|].
    now rewrite (construir_eval _ 944 (-1) 921 23 59 20).
Qed.

(** C2, amended. On flow data that the specification rejects (a productive
    state whose total outgoing flow is not positive, or a negative count),
    with the six counts present and within the bound that keeps every
    quotient inside the float range, the builder raises nothing: it returns
    a matrix, in which the row of each of Horneado, Empaque and Reproceso
    whose total outgoing flow is not positive is all-zero. *)
Theorem C2_total_no_positivo (s : Detector) :
  datos_completos (datos_flujo s) →
  acotados claves_matriz (datos_flujo s) →
  entrada_degenerada (datos_flujo s) →
  ∃ M, construir_matriz_transicion s = (Ok tt, con_matriz (Some M) s) ∧
       ∀ i, 1 ≤ i < 4 → (total (datos_flujo s) i <= 0)%Z →
            M !! i = Some fila_cero.
Proof.
  intros Hd _ _.
  destruct (datos_completos_inv _ Hd)
    as (he & hr & ev & er & rh & rd & Hhe & Hhr & Hev & Her & Hrh & Hrd).
  exists (matriz_de he hr ev er rh rd).
  split; [now apply construir_eval|].
  intros i [Hi1 Hi2] Ht.
  destruct i as [|[|[|[|i]]]]; try lia.
  - rewrite (total_H _ _ _ Hhe Hhr) in Ht. cbn. now rewrite fila_de_nopos.
  - rewrite (total_E _ _ _ Hev Her) in Ht. cbn. now rewrite fila_de_nopos.
  - rewrite (total_R _ _ _ Hrh Hrd) in Ht. cbn. now rewrite fila_de_nopos.
Qed.

Lemma C2_total_no_positivo_witness :
  ∃ M, construir_matriz_transicion (con_datos datos_sin_horneado init)
       = (Ok tt, con_matriz (Some M) (con_datos datos_sin_horneado init)) ∧
       ∀ i, 1 ≤ i < 4 → (total datos_sin_horneado i <= 0)%Z →
            M !! i = Some fila_cero.
Proof.
  apply (C2_total_no_positivo (con_datos datos_sin_horneado init)).
  - exact datos_sin_horneado_completos.
  - intros k v Hk. unfold claves_matriz in Hk.
    repeat (apply elem_of_cons in Hk as [->|Hk]); [..|inversion Hk];
      intros Hv; vm_compute in Hv; injection Hv as <-; vm_compute; discriminate.
  - left. exists 1. split; [lia|]. vm_compute. discriminate.
Defined.


Lemma C5_filas_suman_uno_witness :
  ∃ M, construir_matriz_transicion (con_datos valores_default init)
       = (Ok tt, con_matriz (Some M) (con_datos valores_default init)) ∧
       length M = 6 ∧
       ∀ fila, fila ∈ M →
         (np_sum fila == 1)%Q ∧ (Qabs (np_sum fila - 1) <= tolerancia_fila)%Q.
Proof.
  apply (C5_filas_suman_uno (con_datos valores_default init)).
  - exact valores_default_completos.
  - exact valores_default_sin_negativos.
  - intros i Hi. destruct i as [|[|[|[|i]]]]; [reflexivity..|lia].
Defined.

(** C5, as the code behaves. In [datos_cancelacion] every total is positive
    (that of Horneado is 1), and the Horneado row that the builder stores is
    [0, 0, 1e17, -1e17, 0, 0]: the quotients (10^17 + 1) / 1 and -10^17 / 1
    are rounded to floats of equal magnitude, so the row sums to 0.0, which
    is not within 1e-9 of 1. *)
Lemma C5_cancelacion :
  datos_completos datos_cancelacion ∧
  (∀ i, i < 4 → (0 < total datos_cancelacion i)%Z) ∧
  ∃ M fila,
    construir_matriz_binary64 datos_cancelacion = Ok M ∧
    M !! 1 = Some fila ∧
    b64_valor <$> fila
    = [Some 0; Some 0; Some (inject_Z (10 ^ 17)); Some (inject_Z (- 10 ^ 17));
       Some 0; Some 0]%Q ∧
    np_sum_binary64 fila = S754_zero false ∧
    b64_leb (b64_abs (b64_sub (np_sum_binary64 fila) (b64_literal 1 1)))
            (b64_literal 1 1000000000) = false.
Proof.
  split; [|split].
  - intros k Hk. unfold claves_matriz in Hk.
    repeat (apply elem_of_cons in Hk as [->|Hk]); [| | | | | |inversion Hk];
      vm_compute; eauto.
  - intros i Hi. destruct i as [|[|[|[|i]]]]; [reflexivity..|lia].
  - eexists _, _. split; [vm_compute; reflexivity|].
    split; [reflexivity|]. split; [vm_compute; reflexivity|].
    split; vm_compute; reflexivity.
Qed.

(** On the reference data, whose counts are all positive, the rows computed
    in binary64 do sum to 1 within 1e-9. *)
Example filas_binary64_referencia :
  ∃ M, construir_matriz_binary64 valores_default = Ok M ∧
       List.length M = 6 ∧
       forallb (λ fila,
                  b64_leb (b64_abs (b64_sub (np_sum_binary64 fila) (b64_literal 1 1)))
                          (b64_literal 1 1000000000)) M = true.
Proof.
  eexists. split; [vm_compute; reflexivity|]. split; vm_compute; reflexivity.
Qed.

(** ** The stability classifier *)

Lemma clasificar_estable (lam : Q) :
  (Qabs (lam - 1) < tolerancia)%Q → clasificar lam = mkInforme ESTABLE None.
Proof.
  intros H. unfold clasificar.
  destruct (Qlt_le_dec (Qabs (lam - 1)) tolerancia) as [_|Hge]; [reflexivity|].
  exfalso. exact (Qlt_not_le _ _ H Hge).
Qed.

Lemma clasificar_perdidas (lam : Q) :
  (lam <= 1 - tolerancia)%Q →
  clasificar lam = mkInforme CON_PERDIDAS (Some ((1 - lam) * 100)%Q).
Proof.
  intros H. unfold clasificar, tolerancia in *.
  destruct (Qlt_le_dec (Qabs (lam - 1)) 0.001) as [Hlt|_].
  - exfalso. apply Qabs_Qlt_condition in Hlt. lra.
  - destruct (Qlt_le_dec lam 1) as [_|Hge]; [reflexivity|]. exfalso. lra.
Qed.

Lemma clasificar_inestable (lam : Q) :
  (1 + tolerancia <= lam)%Q → clasificar lam = mkInforme INESTABLE None.
Proof.
  intros H. unfold clasificar, tolerancia in *.
  destruct (Qlt_le_dec (Qabs (lam - 1)) 0.001) as [Hlt|_].
  - exfalso. apply Qabs_Qlt_condition in Hlt. lra.
  - destruct (Qlt_le_dec lam 1) as [Hlt|_]; [|reflexivity]. exfalso. lra.
Qed.

(** The three regimes cover the line. *)
Lemma tres_regimenes (lam : Q) :
  (Qabs (lam - 1) < tolerancia)%Q ∨ (lam <= 1 - tolerancia)%Q
  ∨ (1 + tolerancia <= lam)%Q.
Proof.
  unfold tolerancia.
  destruct (Qlt_le_dec (Qabs (lam - 1)) 0.001) as [Hlt|Hge]; [now left|right].
  revert Hge. apply Qabs_case; intros H0 H1; [right|left]; lra.
Qed.

Lemma analizar_eval (s : Detector) (lam : Q) :
  autovalor_dominante s = Some lam →
  analizar_estabilidad_sistema s = (Ok (clasificar lam), s).
Proof.
  intros H. unfold analizar_estabilidad_sistema, ligar, leer, exigir, ret.
  now rewrite H.
Qed.

(** C3. With tolerance 1e-3 the classifier answers ESTABLE when
    |lam - 1| < tol, CON_PERDIDAS when lam < 1 - tol, reporting the loss
    (1 - lam) as the percentage (1 - lam) * 100, and INESTABLE when
    lam > 1 + tol; so 1 is stable, 0.95 is lossy with loss 5 percent (the
    fraction 0.05), and 1.01 is unstable. *)
Theorem C3_clasificador (lam : Q) :
  tolerancia = 0.001%Q ∧
  ((Qabs (lam - 1) < tolerancia)%Q →
     estabilidad (clasificar lam) = ESTABLE) ∧
  ((lam < 1 - tolerancia)%Q →
     estabilidad (clasificar lam) = CON_PERDIDAS ∧
     ∃ p, perdida (clasificar lam) = Some p ∧ (p / 100 == 1 - lam)%Q) ∧
  ((1 + tolerancia < lam)%Q →
     estabilidad (clasificar lam) = INESTABLE) ∧
  (∀ s, autovalor_dominante s = Some lam →
     analizar_estabilidad_sistema s = (Ok (clasificar lam), s)) ∧
  estabilidad (clasificar 1) = ESTABLE ∧
  (estabilidad (clasificar 0.95) = CON_PERDIDAS ∧
   ∃ p, perdida (clasificar 0.95) = Some p ∧ (p / 100 == 0.05)%Q) ∧
  estabilidad (clasificar 1.01) = INESTABLE.
Proof.
  split; [reflexivity|]. split; [|split; [|split; [|split]]].
  - intros H. now rewrite clasificar_estable.
  - intros H. rewrite clasificar_perdidas by lra.
    split; [reflexivity|]. eexists. split; [reflexivity|]. field.
  - intros H. now rewrite clasificar_inestable by lra.
  - intros s Hs. now apply analizar_eval.
  - split; [reflexivity|]. split; [|reflexivity].
    split; [reflexivity|]. eexists. split; [reflexivity|]. reflexivity.
Qed.

Lemma C3_clasificador_witness :
  estabilidad (clasificar 0.95) = CON_PERDIDAS ∧
  ∃ p, perdida (clasificar 0.95) = Some p ∧ (p / 100 == 1 - 0.95)%Q.
Proof.
  destruct (C3_clasificador 0.95) as (_ & _ & Hperdidas & _).
  apply Hperdidas. reflexivity.
Defined.

(** C10, as the code behaves. The eigenvalue written 1.001 is the float
    nearest to 1.001, which lies below it: its distance from 1.0 is
    0.00099999999999989, less than the float 0.001, and the classifier
    answers ESTABLE, not INESTABLE. *)
Lemma C10_frontera_estable :
  ∃ q, b64_valor (b64_literal 1001 1000) = Some q ∧
       (q < 1.001)%Q ∧
       clasificar_binary64 (b64_literal 1001 1000) = (ESTABLE, None) ∧
       estabilidad (clasificar q) = ESTABLE.
Proof.
  eexists. split; [vm_compute; reflexivity|].
  split; [reflexivity|]. split; vm_compute; reflexivity.
Qed.

(** C10, amended. The classifier is total and gives each eigenvalue exactly
    one verdict: ESTABLE exactly when |lam - 1| < tol, CON_PERDIDAS exactly
    when lam <= 1 - tol, INESTABLE exactly when lam >= 1 + tol, [lam] being
    the value that the float holds.  Neither boundary is a float: the float
    written 0.999 lies below 0.999 and is lossy; the float written 1.001
    lies below 1.001 and is stable. *)
Theorem C10_clasificador_total (lam : Q) :
  (∀ s, autovalor_dominante s = Some lam →
     ∃ inf, analizar_estabilidad_sistema s = (Ok inf, s) ∧ inf = clasificar lam) ∧
  (estabilidad (clasificar lam) = ESTABLE ↔ (Qabs (lam - 1) < tolerancia)%Q) ∧
  (estabilidad (clasificar lam) = CON_PERDIDAS ↔ (lam <= 1 - tolerancia)%Q) ∧
  (estabilidad (clasificar lam) = INESTABLE ↔ (1 + tolerancia <= lam)%Q) ∧
  (1 - tolerancia == 0.999)%Q ∧ (1 + tolerancia == 1.001)%Q ∧
  (∃ q, b64_valor (b64_literal 999 1000) = Some q ∧ (q < 0.999)%Q ∧
        fst (clasificar_binary64 (b64_literal 999 1000)) = CON_PERDIDAS ∧
        estabilidad (clasificar q) = CON_PERDIDAS) ∧
  (∃ q, b64_valor (b64_literal 1001 1000) = Some q ∧ (q < 1.001)%Q ∧
        fst (clasificar_binary64 (b64_literal 1001 1000)) = ESTABLE ∧
        estabilidad (clasificar q) = ESTABLE).
Proof.
  split.
  { intros s Hs. exists (clasificar lam). split; [now apply analizar_eval|reflexivity]. }
  assert (∀ v, estabilidad (clasificar lam) = v →
               match v with
               | ESTABLE => (Qabs (lam - 1) < tolerancia)%Q
               | CON_PERDIDAS => (lam <= 1 - tolerancia)%Q
               | INESTABLE => (1 + tolerancia <= lam)%Q
               end) as Hinv.
  { intros v Hv.
    destruct (tres_regimenes lam) as [H|[H|H]].
    - rewrite clasificar_estable in Hv by exact H. now subst v.
    - rewrite clasificar_perdidas in Hv by exact H. now subst v.
    - rewrite clasificar_inestable in Hv by exact H. now subst v. }
  split; [|split; [|split]].
  - split; [apply (Hinv ESTABLE)|]. intros H. now rewrite clasificar_estable.
  - split; [apply (Hinv CON_PERDIDAS)|]. intros H. now rewrite clasificar_perdidas.
  - split; [apply (Hinv INESTABLE)|]. intros H. now rewrite clasificar_inestable.
  - do 2 (split; [reflexivity|]).
    split; (eexists; split; [vm_compute; reflexivity|]);
      (split; [reflexivity|]); split; vm_compute; reflexivity.
Qed.

(** ** The report *)

(** The report holds one of two labels only. *)
Lemma reporte_estabilidad (s s' : Detector) (r : Reporte) :
  generar_reporte s = (Ok r, s') →
  ∃ lam, autovalor_dominante s = Some lam ∧
         r_estabilidad_sistema r
         = if Qlt_le_dec (Qabs (lam - 1)) tolerancia then ESTABLE else INESTABLE.
Proof.
  unfold generar_reporte. do 4 paso.
  destruct (autovector_dominante s) as [v|]; [paso|falla].
  do 2 paso.
  destruct (cuello_botella_idx s) as [i|]; [paso|falla].
  unfold indice. destruct (v !! i) as [x|]; [paso|falla].
  do 2 paso.
  destruct (autovalor_dominante s) as [lam|]; [paso|falla].
  destruct (datos_flujo s !! "E_to_V") as [ev|] eqn:Hev; [paso|falla].
  destruct (datos_flujo s !! "A_to_H") as [ah|] eqn:Hah; [paso|falla].
  destruct (py_truediv ev ah) as [ef|]; [paso|falla].
  destruct (datos_flujo s !! "H_to_R") as [hr|] eqn:Hhr; [paso|falla].
  destruct (datos_flujo s !! "E_to_R") as [er|] eqn:Her; [paso|falla].
  paso.
  destruct (py_truediv (hr + er) ah) as [tr|]; [paso|falla].
  intros [= <- <-]. exists lam. split; reflexivity.
Qed.

(** C8, at the failing input: on an instance whose dominant eigenvalue is
    0.95 the classifier answers CON_PERDIDAS with a loss of 5 percent, and
    the report records INESTABLE; the report never records CON_PERDIDAS. *)
Theorem C8_reporte_sin_perdidas :
  (∃ inf, analizar_estabilidad_sistema estado_con_perdidas
          = (Ok inf, estado_con_perdidas) ∧
          estabilidad inf = CON_PERDIDAS ∧
          ∃ p, perdida inf = Some p ∧ (p == 5)%Q) ∧
  (∃ r, generar_reporte estado_con_perdidas = (Ok r, estado_con_perdidas) ∧
        r_autovalor_dominante r = 0.95%Q ∧
        r_estabilidad_sistema r = INESTABLE) ∧
  (∀ s s' r, generar_reporte s = (Ok r, s') →
             r_estabilidad_sistema r ≠ CON_PERDIDAS).
Proof.
  split; [|split].
  - eexists. split; [reflexivity|]. split; [reflexivity|].
    eexists. split; reflexivity.
  - eexists. split; [vm_compute; reflexivity|]. split; reflexivity.
  - intros s s' r H. destruct (reporte_estabilidad _ _ _ H) as (lam & _ & ->).
    now destruct (Qlt_le_dec _ _).
Qed.

(** The same divergence in a whole analysis.  The matrix built from
    [datos_ciclo_negativo] has the eigenvector (-1/2, 1, -2, -1/2, 0, 0) for
    the eigenvalue -2; with a solver answer that holds this pair, the
    dominant eigenvalue is -2, the classifier answers CON_PERDIDAS and the
    report records INESTABLE. *)
Example reporte_ciclo_negativo :
  let s0 := con_datos datos_ciclo_negativo init in
  let r := analisis eig_ciclo argsort_ejemplo s0 in
  (∃ M, matriz_transicion (snd r) = Some M ∧
        Forall2 Qeq (mat_vec M [-0.5; 1; -2; -0.5; 0; 0]%Q)
                    ((λ x, -2 * x)%Q <$> [-0.5; 1; -2; -0.5; 0; 0]%Q)) ∧
  autovalor_dominante (snd r) = Some (-2)%Q ∧
  estabilidad <$> (match fst r with Ok inf => Some inf | Raise _ => None end)
  = Some CON_PERDIDAS ∧
  ∃ rep, fst (generar_reporte (snd r)) = Ok rep ∧
         r_estabilidad_sistema rep = INESTABLE.
Proof.
  intros s0 r. split; [|split; [|split]].
  - eexists. split; [vm_compute; reflexivity|].
    repeat constructor; reflexivity.
  - vm_compute. reflexivity.
  - vm_compute. reflexivity.
  - exists (match fst (generar_reporte (snd r)) with
            | Ok rep => rep
            | Raise _ => mkReporte ∅ None NaN 0 [] 0 0 ESTABLE
            end).
    split; vm_compute; reflexivity.
Qed.

(** ** The bottleneck identifier *)

Lemma argmax_desde_spec (qs : list Q) :
  ∀ (m : Q) (imax i : nat),
    (argmax_desde (Num m) imax i (Num <$> qs) = imax ∧
     ∀ j q, qs !! j = Some q → (q <= m)%Q)
    ∨ ∃ k qk,
        argmax_desde (Num m) imax i (Num <$> qs) = i + k ∧
        qs !! k = Some qk ∧ (m < qk)%Q ∧
        (∀ j q, qs !! j = Some q → (q <= qk)%Q) ∧
        (∀ j q, j < k → qs !! j = Some q → (q < qk)%Q).
Proof.
  induction qs as [|q qs IH]; intros m imax i.
  - left. split; [reflexivity|]. intros j x Hx. discriminate Hx.
  - cbn [fmap list_fmap argmax_desde es_nan np_le].
    destruct (Qle_bool q m) eqn:Hq.
    + apply Qle_bool_iff in Hq.
      destruct (IH m imax (S i)) as [[Hr Hall]|(k & qk & Hr & Hk & Hm & Hall & Hfirst)].
      * left. split; [exact Hr|].
        intros [|j] x Hx; cbn in Hx; [now simplify_eq|eauto].
      * right. exists (S k), qk. split; [rewrite Hr; lia|].
        split; [exact Hk|]. split; [exact Hm|]. split.
        -- intros [|j] x Hx; cbn in Hx; [simplify_eq; lra|eauto].
        -- intros [|j] x Hj Hx; cbn in Hx; [simplify_eq; lra|].
           apply (Hfirst j); [lia|exact Hx].
    + assert (m < q)%Q as Hlt.
      { apply Qnot_le_lt. intros Hle. apply Qle_bool_iff in Hle. congruence. }
      destruct (IH q i (S i)) as [[Hr Hall]|(k & qk & Hr & Hk & Hm & Hall & Hfirst)].
      * right. exists 0, q. split; [rewrite Hr; lia|].
        split; [reflexivity|]. split; [exact Hlt|]. split.
        -- intros [|j] x Hx; cbn in Hx; [simplify_eq; lra|eauto].
        -- intros j x Hj. lia.
      * right. exists (S k), qk. split; [rewrite Hr; lia|].
        split; [exact Hk|]. split; [lra|]. split.
        -- intros [|j] x Hx; cbn in Hx; [simplify_eq; lra|eauto].
        -- intros [|j] x Hj Hx; cbn in Hx; [simplify_eq; lra|].
           apply (Hfirst j); [lia|exact Hx].
Qed.

(** On finite values [np.argmax] returns the first index of the maximum. *)
Lemma np_argmax_spec (q0 : Q) (qs : list Q) :
  ∃ r qr,
    np_argmax (Num <$> q0 :: qs) = Ok r ∧
    (q0 :: qs) !! r = Some qr ∧
    (∀ j q, (q0 :: qs) !! j = Some q → (q <= qr)%Q) ∧
    (∀ j q, j < r → (q0 :: qs) !! j = Some q → (q < qr)%Q).
Proof.
  change (np_argmax (Num <$> q0 :: qs))
    with (Ok (argmax_desde (Num q0) 0 1 (Num <$> qs))).
  destruct (argmax_desde_spec qs q0 0 1)
    as [[Hr Hall]|(k & qk & Hr & Hk & Hm & Hall & Hfirst)].
  - exists 0, q0. split; [now rewrite Hr|]. split; [reflexivity|]. split.
    + intros [|j] x Hx; cbn in Hx; [simplify_eq; lra|eauto].
    + intros j x Hj. lia.
  - exists (S k), qk. split; [now rewrite Hr|]. split; [exact Hk|]. split.
    + intros [|j] x Hx; cbn in Hx; [simplify_eq; lra|eauto].
    + intros [|j] x Hj Hx; cbn in Hx; [simplify_eq; lra|].
      apply (Hfirst j); [lia|exact Hx].
Qed.

(** C1. On a distribution of six values between 0 and 1 (as the values of
    a normalised distribution are) the identifier returns
    normally and records an index [i < 4] and the name of that state, where
    the value at [i] is the maximum of the first four values (those of
    Amasado, Horneado, Empaque, Reproceso), [i] is the lowest index reaching
    it, and the name is a productive state, never Venta or Descarte,
    whatever the values of the two absorbing states. *)
Theorem C1_cuello_productivo (s : Detector) (qs : list Q) :
  autovector_dominante s = Some (Num <$> qs) →
  length qs = 6 →
  Forall (λ q, (0 <= q <= 1)%Q) qs →
  ∃ i nombre qi,
    identificar_cuello_botella s
    = (Ok tt, con_cuello_nombre (Some nombre) (con_cuello_idx (Some i) s)) ∧
    i < 4 ∧ etapas !! i = Some nombre ∧ qs !! i = Some qi ∧
    (∀ j q, j < 4 → qs !! j = Some q → (q <= qi)%Q) ∧
    (∀ j q, j < i → qs !! j = Some q → (q < qi)%Q) ∧
    nombre ∈ etapas_productivas ∧ nombre ≠ "Venta" ∧ nombre ≠ "Descarte".
Proof.
  intros Hv Hlen _.
  destruct qs as [|q0 [|q1 [|q2 [|q3 [|q4 [|q5 [|q6 qs]]]]]]]; try discriminate Hlen.
  destruct (np_argmax_spec q0 [q1; q2; q3])
    as (r & qr & Hr & Hqr & Hmax & Hfirst).
  assert (r < 4) as Hr4 by (apply lookup_lt_Some in Hqr; exact Hqr).
  assert (∃ nombre, take 4 etapas !! r = Some nombre ∧ etapas !! r = Some nombre
                    ∧ nombre ∈ etapas_productivas
                    ∧ nombre ≠ "Venta" ∧ nombre ≠ "Descarte")
    as (nombre & Hn & Hn' & Hin & HV & HD).
  { destruct r as [|[|[|[|r]]]]; [..|lia]; eexists;
      (split; [reflexivity|]); (split; [reflexivity|]);
      (split; [set_solver|]); split; discriminate. }
  exists r, nombre, qr.
  split.
  { unfold identificar_cuello_botella. do 2 paso. rewrite Hv. paso.
    change (take 4 (Num <$> [q0; q1; q2; q3; q4; q5]))
      with (Num <$> [q0; q1; q2; q3]).
    rewrite Hr.
    do 2 paso. unfold indice. rewrite Hn. reflexivity. }
  split; [exact Hr4|]. split; [exact Hn'|].
  split; [destruct r as [|[|[|[|r]]]]; [exact Hqr..|lia]|].
  split; [|split].
  - intros j q Hj Hq. apply (Hmax j).
    destruct j as [|[|[|[|j]]]]; [exact Hq..|lia].
  - intros j q Hj Hq. apply (Hfirst j); [exact Hj|].
    destruct j as [|[|[|[|j]]]]; [exact Hq..|lia].
  - split; [exact Hin|]. split; [exact HV|exact HD].
Qed.

Lemma C1_cuello_productivo_witness :
  ∃ i nombre qi,
    identificar_cuello_botella
      (con_autovector_dominante (Some (Num <$> distribucion_ejemplo)) init)
    = (Ok tt,
       con_cuello_nombre (Some nombre)
         (con_cuello_idx (Some i)
            (con_autovector_dominante (Some (Num <$> distribucion_ejemplo)) init))) ∧
    i < 4 ∧ etapas !! i = Some nombre ∧ distribucion_ejemplo !! i = Some qi ∧
    (∀ j q, j < 4 → distribucion_ejemplo !! j = Some q → (q <= qi)%Q) ∧
    (∀ j q, j < i → distribucion_ejemplo !! j = Some q → (q < qi)%Q) ∧
    nombre ∈ etapas_productivas ∧ nombre ≠ "Venta" ∧ nombre ≠ "Descarte".
Proof.
  apply (C1_cuello_productivo
           (con_autovector_dominante (Some (Num <$> distribucion_ejemplo)) init)
           distribucion_ejemplo); [reflexivity..|].
  unfold distribucion_ejemplo.
  repeat (apply List.Forall_cons; [split; vm_compute; discriminate|]).
  apply List.Forall_nil.
Defined.

Example identificar_ejemplo :
  identificar_cuello_botella
    (con_autovector_dominante (Some (Num <$> distribucion_ejemplo)) init)
  = (Ok tt,
     con_cuello_nombre (Some "Horneado")
       (con_cuello_idx (Some 1)
          (con_autovector_dominante (Some (Num <$> distribucion_ejemplo)) init))).
Proof. reflexivity. Qed.

(** ** Normalisation of the dominant eigenvector *)

Lemma np_sum_abs_nonneg (v : list Q) : (0 <= np_sum (np_abs v))%Q.
Proof.
  induction v as [|x v IH]; cbn; [lra|].
  pose proof (Qabs_nonneg x). unfold np_sum, np_abs in IH. lra.
Qed.

Lemma np_sum_abs_cero (v : list Q) :
  (np_sum (np_abs v) == 0)%Q → Forall (λ x, (Qabs x == 0)%Q) v.
Proof.
  induction v as [|x v IH]; intros H; constructor.
  - cbn in H. pose proof (Qabs_nonneg x). pose proof (np_sum_abs_nonneg v).
    unfold np_sum, np_abs in *. lra.
  - apply IH. cbn in H. pose proof (Qabs_nonneg x).
    pose proof (np_sum_abs_nonneg v). unfold np_sum, np_abs in *. lra.
Qed.

Lemma np_sum_cociente (c : Q) (l : list Q) :
  (np_sum ((λ x, x / c) <$> l) == np_sum l / c)%Q.
Proof.
  induction l as [|x l IH]; cbn.
  - unfold Qdiv. ring.
  - unfold np_sum in IH. rewrite IH. unfold Qdiv. ring.
Qed.

Lemma np_true_divide_num (a b : Q) :
  ¬ (b == 0)%Q → np_true_divide a b = Num (a / b).
Proof.
  intros H. unfold np_true_divide.
  destruct (Qeq_bool b 0) eqn:Hb; [|reflexivity].
  apply Qeq_bool_iff in Hb. contradiction.
Qed.

Lemma np_true_divide_nan (a b : Q) :
  (a == 0)%Q → (b == 0)%Q → np_true_divide a b = NaN.
Proof.
  intros Ha Hb. unfold np_true_divide.
  apply Qeq_bool_iff in Hb. rewrite Hb.
  apply Qeq_alt in Ha. now rewrite Ha.
Qed.

(** The quotient of the code, componentwise, when the sum is not zero. *)
Lemma normalizar_num (v : list Q) :
  ¬ (np_sum (np_abs v) == 0)%Q →
  normalizar v = Num <$> ((λ x, Qabs x / np_sum (np_abs v))%Q <$> v).
Proof.
  intros H. unfold normalizar. cbv zeta.
  set (S := np_sum (np_abs v)) in *. unfold np_abs.
  rewrite <- !list_fmap_compose. apply list_fmap_ext. intros i x _.
  cbn. now apply np_true_divide_num.
Qed.

Lemma normalizar_nan (v : list Q) :
  (np_sum (np_abs v) == 0)%Q → normalizar v = replicate (length v) NaN.
Proof.
  intros H. pose proof (np_sum_abs_cero v H) as Hall.
  unfold normalizar. cbv zeta.
  set (S := np_sum (np_abs v)) in *. unfold np_abs.
  rewrite <- list_fmap_compose. clearbody S.
  induction Hall as [|x v Hx Hall IH]; [reflexivity|].
  cbn [fmap list_fmap length replicate compose]. f_equal.
  - now apply np_true_divide_nan.
  - exact IH.
Qed.

Lemma normalizar_suma (v : list Q) :
  ¬ (np_sum (np_abs v) == 0)%Q →
  (np_sum ((λ x, Qabs x / np_sum (np_abs v))%Q <$> v) == 1)%Q.
Proof.
  intros H.
  transitivity (np_sum ((λ x, x / np_sum (np_abs v))%Q <$> np_abs v)).
  - set (S := np_sum (np_abs v)). unfold np_abs.
    now rewrite <- list_fmap_compose.
  - rewrite np_sum_cociente. now field.
Qed.

Lemma normalizar_no_negativo (v : list Q) :
  Forall (λ q, (0 <= q)%Q) ((λ x, Qabs x / np_sum (np_abs v))%Q <$> v).
Proof.
  apply Forall_fmap, Forall_forall. intros x _. cbn.
  pose proof (np_sum_abs_nonneg v) as Hs. pose proof (Qabs_nonneg x) as Hx.
  destruct (Qeq_dec (np_sum (np_abs v)) 0) as [H0|Hne].
  - rewrite H0. unfold Qdiv. cbn. lra.
  - apply Qle_shift_div_l; lra.
Qed.

Section Autovalores.

Variable linalg_eig : matriz → resultado (list Q * list (list Q)).
Variable np_argsort : list Q → list nat.

Lemma calcular_eval (s : Detector) (M : matriz) (w ws : list Q)
    (cols vs : list (list Q)) (lam : Q) (v : list Q) :
  matriz_transicion s = Some M →
  linalg_eig M = Ok (w, cols) →
  tomar w (reverse (np_argsort (np_abs w))) = Ok (lam :: ws) →
  tomar cols (reverse (np_argsort (np_abs w))) = Ok (v :: vs) →
  calcular_autovalores_scipy linalg_eig np_argsort s
  = (Ok tt, tras_calcular w ws cols vs lam v s).
Proof.
  intros HM Heig Hw Hcols. unfold calcular_autovalores_scipy.
  paso. rewrite HM. paso. rewrite Heig.
  repeat (first [paso | proyectar]).
  rewrite Hw. repeat (first [paso | proyectar]).
  rewrite Hcols. repeat (first [paso | proyectar]).
  reflexivity.
Qed.

(** C6. When the solver returns and the sorted decomposition has a top
    pair [(lam, v)] with a nonzero sum of absolute values, the method
    returns normally and the dominant distribution is, componentwise,
    [|v_k| / sum |v|]: finite values, each >= 0, that sum to 1, hence to 1
    within 1e-9. *)
Theorem C6_distribucion_dominante (s : Detector) (M : matriz) (w ws : list Q)
    (cols vs : list (list Q)) (lam : Q) (v : list Q) :
  matriz_transicion s = Some M →
  linalg_eig M = Ok (w, cols) →
  tomar w (reverse (np_argsort (np_abs w))) = Ok (lam :: ws) →
  tomar cols (reverse (np_argsort (np_abs w))) = Ok (v :: vs) →
  ¬ (np_sum (np_abs v) == 0)%Q →
  ∃ s' p,
    calcular_autovalores_scipy linalg_eig np_argsort s = (Ok tt, s') ∧
    autovalor_dominante s' = Some lam ∧
    autovector_dominante s' = Some (Num <$> p) ∧
    p = (λ x, Qabs x / np_sum (np_abs v))%Q <$> v ∧
    Forall (λ q, (0 <= q)%Q) p ∧
    (np_sum p == 1)%Q ∧ (Qabs (np_sum p - 1) <= tolerancia_fila)%Q.
Proof.
  intros HM Heig Hw Hcols Hs.
  exists (tras_calcular w ws cols vs lam v s),
         ((λ x, Qabs x / np_sum (np_abs v))%Q <$> v).
  split; [now apply calcular_eval with M|].
  split; [reflexivity|].
  split; [cbn; now rewrite normalizar_num|].
  split; [reflexivity|].
  split; [apply normalizar_no_negativo|].
  pose proof (normalizar_suma v Hs) as H1.
  split; [exact H1 | now apply cerca_de_uno].
Qed.

(** C7, amended. When the top eigenvector has absolute values that sum to
    zero the method raises nothing: it returns normally and every component
    of the dominant distribution is [nan]. *)
Theorem C7_autovector_nulo (s : Detector) (M : matriz) (w ws : list Q)
    (cols vs : list (list Q)) (lam : Q) (v : list Q) :
  matriz_transicion s = Some M →
  linalg_eig M = Ok (w, cols) →
  tomar w (reverse (np_argsort (np_abs w))) = Ok (lam :: ws) →
  tomar cols (reverse (np_argsort (np_abs w))) = Ok (v :: vs) →
  (np_sum (np_abs v) == 0)%Q →
  ∃ s',
    calcular_autovalores_scipy linalg_eig np_argsort s = (Ok tt, s') ∧
    autovector_dominante s' = Some (replicate (length v) NaN).
Proof.
  intros HM Heig Hw Hcols Hs.
  exists (tras_calcular w ws cols vs lam v s).
  split; [now apply calcular_eval with M|].
  cbn. now rewrite normalizar_nan.
Qed.

End Autovalores.

Lemma C6_distribucion_dominante_witness :
  ∃ s' p,
    calcular_autovalores_scipy eig_ejemplo argsort_ejemplo estado_con_matriz
    = (Ok tt, s') ∧
    autovalor_dominante s' = Some 1%Q ∧
    autovector_dominante s' = Some (Num <$> p) ∧
    p = (λ x, Qabs x / np_sum (np_abs [-1; 4; -3; 2; 0; 0]))%Q
          <$> [-1; 4; -3; 2; 0; 0]%Q ∧
    Forall (λ q, (0 <= q)%Q) p ∧
    (np_sum p == 1)%Q ∧ (Qabs (np_sum p - 1) <= tolerancia_fila)%Q.
Proof.
  apply (C6_distribucion_dominante eig_ejemplo argsort_ejemplo estado_con_matriz
           (matriz_de 944 56 921 23 59 20) [0.5; 1]%Q [0.5]%Q
           [[0; 0; 0; 0; 1; 0]; [-1; 4; -3; 2; 0; 0]]%Q [[0; 0; 0; 0; 1; 0]]%Q).
  - reflexivity.
  - reflexivity.
  - reflexivity.
  - reflexivity.
  - vm_compute. discriminate.
Defined.

(** C7, as the code behaves: a null top eigenvector raises nothing, and the
    dominant distribution is six times [nan]. *)
Lemma C7_no_falla :
  (np_sum (np_abs [0; 0; 0; 0; 0; 0]) == 0)%Q ∧
  ∃ s',
    calcular_autovalores_scipy eig_nulo argsort_ejemplo estado_con_matriz
    = (Ok tt, s') ∧
    autovector_dominante s' = Some [NaN; NaN; NaN; NaN; NaN; NaN].
Proof.
  split; [reflexivity|].
  exists (snd (calcular_autovalores_scipy eig_nulo argsort_ejemplo
                 estado_con_matriz)).
  split; vm_compute; reflexivity.
Qed.

Lemma C7_autovector_nulo_witness :
  ∃ s',
    calcular_autovalores_scipy eig_nulo argsort_ejemplo estado_con_matriz
    = (Ok tt, s') ∧
    autovector_dominante s' = Some (replicate 6 NaN).
Proof.
  apply (C7_autovector_nulo eig_nulo argsort_ejemplo estado_con_matriz
           (matriz_de 944 56 921 23 59 20) [1]%Q [] [[0; 0; 0; 0; 0; 0]]%Q []
           1%Q [0; 0; 0; 0; 0; 0]%Q); reflexivity.
Defined.

(** ** Independence from the Amasado count *)

Create HintDb respeta.

Lemma respeta_ret {A} (a : A) : respeta (ret a).
Proof. intros s1 s2 H. now split. Qed.

Lemma respeta_lanzar {A} (e : excepcion) : respeta (@lanzar A e).
Proof. intros s1 s2 H. now split. Qed.

Lemma respeta_elevar {A} (r : resultado A) : respeta (elevar r).
Proof. intros s1 s2 H. now split. Qed.

Lemma respeta_ligar {A B} (m : metodo A) (k : A → metodo B) :
  respeta m → (∀ a, respeta (k a)) → respeta (ligar m k).
Proof.
  intros Hm Hk s1 s2 H. unfold ligar.
  destruct (Hm s1 s2 H) as [Hr Hs].
  destruct (m s1) as [r1 t1], (m s2) as [r2 t2]. cbn in Hr, Hs. subst r2.
  destruct r1 as [a|e]; [now apply Hk | now split].
Qed.

Lemma respeta_exigir {A} (o : option A) : respeta (exigir o).
Proof. destruct o; [apply respeta_ret | apply respeta_lanzar]. Qed.

Lemma respeta_indice {A} (l : list A) (i : nat) : respeta (indice l i).
Proof.
  unfold indice. destruct (l !! i); [apply respeta_ret | apply respeta_lanzar].
Qed.

Lemma respeta_si {A} (c : bool) (m1 m2 : metodo A) :
  respeta m1 → respeta m2 → respeta (if c then m1 else m2).
Proof. now destruct c. Qed.

Lemma respeta_dato (k : string) : k ≠ "A_to_H" → respeta (dato k).
Proof.
  intros Hk s1 s2 H. unfold dato, ligar, leer.
  pose proof H as (_ & _ & _ & _ & _ & _ & _ & Hd).
  rewrite (Hd k Hk).
  destruct (datos_flujo s2 !! k); (split; [reflexivity|exact H]).
Qed.

Lemma respeta_leer_matriz : respeta (leer matriz_transicion).
Proof. intros s1 s2 H. split; [cbn; f_equal; apply H | exact H]. Qed.
Lemma respeta_leer_autovalores : respeta (leer autovalores).
Proof. intros s1 s2 H. split; [cbn; f_equal; apply H | exact H]. Qed.
Lemma respeta_leer_autovectores : respeta (leer autovectores).
Proof. intros s1 s2 H. split; [cbn; f_equal; apply H | exact H]. Qed.
Lemma respeta_leer_autovalor : respeta (leer autovalor_dominante).
Proof. intros s1 s2 H. split; [cbn; f_equal; apply H | exact H]. Qed.
Lemma respeta_leer_autovector : respeta (leer autovector_dominante).
Proof. intros s1 s2 H. split; [cbn; f_equal; apply H | exact H]. Qed.

Lemma respeta_escribir_matriz M : respeta (escribir (con_matriz M)).
Proof. intros s1 s2 H. split; [reflexivity|]. unfold salvo_A_to_H in *. cbn. tauto. Qed.
Lemma respeta_escribir_autovalores w : respeta (escribir (con_autovalores w)).
Proof. intros s1 s2 H. split; [reflexivity|]. unfold salvo_A_to_H in *. cbn. tauto. Qed.
Lemma respeta_escribir_autovectores v : respeta (escribir (con_autovectores v)).
Proof. intros s1 s2 H. split; [reflexivity|]. unfold salvo_A_to_H in *. cbn. tauto. Qed.
Lemma respeta_escribir_autovalor l : respeta (escribir (con_autovalor_dominante l)).
Proof. intros s1 s2 H. split; [reflexivity|]. unfold salvo_A_to_H in *. cbn. tauto. Qed.
Lemma respeta_escribir_autovector v : respeta (escribir (con_autovector_dominante v)).
Proof. intros s1 s2 H. split; [reflexivity|]. unfold salvo_A_to_H in *. cbn. tauto. Qed.
Lemma respeta_escribir_idx i : respeta (escribir (con_cuello_idx i)).
Proof. intros s1 s2 H. split; [reflexivity|]. unfold salvo_A_to_H in *. cbn. tauto. Qed.
Lemma respeta_escribir_nombre n : respeta (escribir (con_cuello_nombre n)).
Proof. intros s1 s2 H. split; [reflexivity|]. unfold salvo_A_to_H in *. cbn. tauto. Qed.

#[local] Hint Resolve respeta_ret respeta_lanzar respeta_elevar respeta_exigir
  respeta_indice respeta_leer_matriz respeta_leer_autovalores
  respeta_leer_autovectores respeta_leer_autovalor respeta_leer_autovector
  respeta_escribir_matriz respeta_escribir_autovalores
  respeta_escribir_autovectores respeta_escribir_autovalor
  respeta_escribir_autovector respeta_escribir_idx respeta_escribir_nombre
  : respeta.

(** Decompose a method into its steps and discharge each one. *)
Ltac respetar :=
  repeat first
    [ apply respeta_dato; discriminate
    | solve [auto with respeta]
    | apply respeta_si
    | apply respeta_ligar; [|intros ?] ].

Lemma respeta_asignar i j v : respeta (asignar i j v).
Proof. unfold asignar. respetar. Qed.

#[local] Hint Resolve respeta_asignar : respeta.

Lemma respeta_construir : respeta construir_matriz_transicion.
Proof. unfold construir_matriz_transicion. cbv zeta. respetar. Qed.

Lemma respeta_analizar : respeta analizar_estabilidad_sistema.
Proof. unfold analizar_estabilidad_sistema. respetar. Qed.

Lemma respeta_identificar : respeta identificar_cuello_botella.
Proof. unfold identificar_cuello_botella. cbv zeta. respetar. Qed.

Section Independencia.

Variable linalg_eig : matriz → resultado (list Q * list (list Q)).
Variable np_argsort : list Q → list nat.

Lemma respeta_calcular :
  respeta (calcular_autovalores_scipy linalg_eig np_argsort).
Proof.
  unfold calcular_autovalores_scipy.
  apply respeta_ligar; [auto with respeta|]. intros [M|].
  - cbv zeta. respetar.
  - respetar.
Qed.

Lemma respeta_analisis : respeta (analisis linalg_eig np_argsort).
Proof.
  unfold analisis.
  pose proof respeta_construir. pose proof respeta_calcular.
  pose proof respeta_analizar. pose proof respeta_identificar.
  repeat first [assumption | solve [auto with respeta]
               | apply respeta_ligar; [|intros ?]].
Qed.

(** C9. Two instances whose flow data differ at most in the [A_to_H] count
    get the same outcome and the same matrix from the builder, whose
    Amasado row is [0,1,0,0,0,0] whatever that count; and the analysis
    (builder, eigen step, classifier, identifier) gives them the same
    verdict, eigenvalues, eigenvectors, dominant pair and bottleneck. *)
Theorem C9_independiente_de_A_to_H (s1 s2 : Detector) :
  salvo_A_to_H s1 s2 →
  (fst (construir_matriz_transicion s1) = fst (construir_matriz_transicion s2) ∧
   matriz_transicion (snd (construir_matriz_transicion s1))
   = matriz_transicion (snd (construir_matriz_transicion s2))) ∧
  (datos_completos (datos_flujo s1) →
   ∃ M, matriz_transicion (snd (construir_matriz_transicion s1)) = Some M ∧
        M !! 0 = Some [0; 1; 0; 0; 0; 0]%Q) ∧
  fst (analisis linalg_eig np_argsort s1) = fst (analisis linalg_eig np_argsort s2) ∧
  autovalores (snd (analisis linalg_eig np_argsort s1))
  = autovalores (snd (analisis linalg_eig np_argsort s2)) ∧
  autovectores (snd (analisis linalg_eig np_argsort s1))
  = autovectores (snd (analisis linalg_eig np_argsort s2)) ∧
  autovalor_dominante (snd (analisis linalg_eig np_argsort s1))
  = autovalor_dominante (snd (analisis linalg_eig np_argsort s2)) ∧
  autovector_dominante (snd (analisis linalg_eig np_argsort s1))
  = autovector_dominante (snd (analisis linalg_eig np_argsort s2)) ∧
  cuello_botella_idx (snd (analisis linalg_eig np_argsort s1))
  = cuello_botella_idx (snd (analisis linalg_eig np_argsort s2)) ∧
  cuello_botella_nombre (snd (analisis linalg_eig np_argsort s1))
  = cuello_botella_nombre (snd (analisis linalg_eig np_argsort s2)).
Proof.
  intros H.
  destruct (respeta_construir s1 s2 H) as [Hc1 (Hc2 & _)].
  destruct (respeta_analisis s1 s2 H)
    as [Ha (_ & Hw & HV & Hl & Hv & Hi & Hn & _)].
  split; [now split|]. split; [|tauto].
  intros Hd.
  destruct (datos_completos_inv _ Hd)
    as (he & hr & ev & er & rh & rd & Hhe & Hhr & Hev & Her & Hrh & Hrd).
  rewrite (construir_eval s1 he hr ev er rh rd) by assumption.
  eexists. split; reflexivity.
Qed.

End Independencia.

Lemma salvo_A_to_H_insertar (s : Detector) (a : Z) :
  salvo_A_to_H s (con_datos (<["A_to_H" := a]> (datos_flujo s)) s).
Proof.
  repeat (split; [reflexivity|]). intros k Hk. cbn.
  now rewrite lookup_insert_ne.
Qed.

Lemma C9_independiente_de_A_to_H_witness :
  let s1 := con_datos valores_default init in
  let s2 := con_datos datos_sin_entrada init in
  (fst (construir_matriz_transicion s1) = fst (construir_matriz_transicion s2) ∧
   matriz_transicion (snd (construir_matriz_transicion s1))
   = matriz_transicion (snd (construir_matriz_transicion s2))) ∧
  fst (analisis eig_ejemplo argsort_ejemplo s1)
  = fst (analisis eig_ejemplo argsort_ejemplo s2) ∧
  cuello_botella_nombre (snd (analisis eig_ejemplo argsort_ejemplo s1))
  = cuello_botella_nombre (snd (analisis eig_ejemplo argsort_ejemplo s2)).
Proof.
  intros s1 s2.
  destruct (C9_independiente_de_A_to_H eig_ejemplo argsort_ejemplo s1 s2
              (salvo_A_to_H_insertar s1 0))
    as (Hc & _ & Ha & _ & _ & _ & _ & _ & Hn).
  split; [exact Hc|]. split; [exact Ha|exact Hn].
Defined.

(** The builder's Amasado row on the reference data without input. *)
Example fila_amasado_sin_entrada :
  ∃ M, matriz_transicion
         (snd (construir_matriz_transicion (con_datos datos_sin_entrada init)))
       = Some M ∧ M !! 0 = Some [0; 1; 0; 0; 0; 0]%Q.
Proof. eexists. split; [vm_compute; reflexivity|reflexivity]. Qed.


(** ** Data entry *)

Lemma preguntar_eval (r : Respuesta) (k : string) (s : Detector) :
  is_Some (valores_default !! k) →
  preguntar r k s
  = match valor_ingresado r k with
    | Some v => (Ok tt, con_datos (<[k := v]> (datos_flujo s)) s)
    | None => (Raise ValueError, s)
    end.
Proof.
  intros [v Hv]. destruct r as [|z|]; cbn [preguntar valor_ingresado].
  - now rewrite Hv.
  - reflexivity.
  - reflexivity.
Qed.

Lemma except_ValueError_ok {A} (m h : metodo A) s a s' :
  m s = (Ok a, s') → except_ValueError m h s = (Ok a, s').
Proof. intros H. unfold except_ValueError. now rewrite H. Qed.

Lemma except_ValueError_caso {A} (m h : metodo A) s s' :
  m s = (Raise ValueError, s') → except_ValueError m h s = h s'.
Proof. intros H. unfold except_ValueError. now rewrite H. Qed.

(** One prompt of the [try] body, answered or refused. *)
Ltac responder r k :=
  let Hv := fresh "Hv" in
  destruct (valor_ingresado r k) as [?v|] eqn:Hv;
  [ erewrite (ligar_ok (preguntar r k))
      by (rewrite preguntar_eval by (vm_compute; eauto);
          rewrite Hv; reflexivity)
  | erewrite (ligar_raise (preguntar r k))
      by (rewrite preguntar_eval by (vm_compute; eauto);
          rewrite Hv; reflexivity);
    reflexivity ].

Lemma intento_eval (consola : nat → Respuesta) (s : Detector) :
  except_ValueError
    (preguntar (consola 0) "A_to_H" ;;;
     preguntar (consola 1) "H_to_E" ;;;
     preguntar (consola 2) "H_to_R" ;;;
     preguntar (consola 3) "E_to_V" ;;;
     preguntar (consola 4) "E_to_R" ;;;
     preguntar (consola 5) "R_to_H" ;;;
     preguntar (consola 6) "R_to_D")
    (escribir (con_datos valores_default)) (con_datos ∅ s)
  = (Ok tt, con_datos (datos_finales consola) s).
Proof.
  unfold datos_finales, datos_respondidos, except_ValueError.
  responder (consola 0) "A_to_H".
  responder (consola 1) "H_to_E".
  responder (consola 2) "H_to_R".
  responder (consola 3) "E_to_V".
  responder (consola 4) "E_to_R".
  responder (consola 5) "R_to_H".
  rewrite preguntar_eval by (vm_compute; eauto).
  destruct (valor_ingresado (consola 6) "R_to_D") as [v6|]; reflexivity.
Qed.

Lemma ingresar_eval (consola : nat → Respuesta) (s : Detector) :
  ingresar_datos_flujo consola s
  = _mostrar_resumen_flujo (con_datos (datos_finales consola) s).
Proof.
  unfold ingresar_datos_flujo. paso.
  erewrite ligar_ok by apply intento_eval. reflexivity.
Qed.

Lemma datos_finales_claves (consola : nat → Respuesta) (k : string) :
  k ∈ claves_flujo → is_Some (datos_finales consola !! k).
Proof.
  intros Hk. unfold datos_finales, datos_respondidos.
  destruct (valor_ingresado (consola 0) "A_to_H") as [v0|]; cbn;
    [|revert k Hk; apply Forall_forall; repeat constructor; vm_compute; eauto].
  destruct (valor_ingresado (consola 1) "H_to_E") as [v1|]; cbn;
    [|revert k Hk; apply Forall_forall; repeat constructor; vm_compute; eauto].
  destruct (valor_ingresado (consola 2) "H_to_R") as [v2|]; cbn;
    [|revert k Hk; apply Forall_forall; repeat constructor; vm_compute; eauto].
  destruct (valor_ingresado (consola 3) "E_to_V") as [v3|]; cbn;
    [|revert k Hk; apply Forall_forall; repeat constructor; vm_compute; eauto].
  destruct (valor_ingresado (consola 4) "E_to_R") as [v4|]; cbn;
    [|revert k Hk; apply Forall_forall; repeat constructor; vm_compute; eauto].
  destruct (valor_ingresado (consola 5) "R_to_H") as [v5|]; cbn;
    [|revert k Hk; apply Forall_forall; repeat constructor; vm_compute; eauto].
  destruct (valor_ingresado (consola 6) "R_to_D") as [v6|]; cbn;
    [|revert k Hk; apply Forall_forall; repeat constructor; vm_compute; eauto].
  unfold claves_flujo in Hk.
  repeat (apply elem_of_cons in Hk as [->|Hk]); [..|inversion Hk];
    simplify_map_eq; eauto.
Qed.

Lemma datos_finales_completos (consola : nat → Respuesta) :
  datos_completos (datos_finales consola).
Proof.
  intros k Hk. apply datos_finales_claves.
  unfold claves_matriz in Hk. unfold claves_flujo.
  repeat (apply elem_of_cons in Hk as [->|Hk]); [..|inversion Hk]; set_solver.
Qed.

Lemma resumen_eval (s : Detector) (te ts hr er td : Z) :
  datos_flujo s !! "A_to_H" = Some te →
  datos_flujo s !! "E_to_V" = Some ts →
  datos_flujo s !! "H_to_R" = Some hr →
  datos_flujo s !! "E_to_R" = Some er →
  datos_flujo s !! "R_to_D" = Some td →
  _mostrar_resumen_flujo s
  = (match py_truediv ts te with
     | Ok q => Ok (mkResumen te ts (hr + er) td (q * 100)%Q)
     | Raise e => Raise e
     end, s).
Proof.
  intros. unfold _mostrar_resumen_flujo. do 5 paso.
  destruct (py_truediv ts te) as [q|e]; [now paso|].
  now erewrite ligar_raise by reflexivity.
Qed.

Lemma valor_ingresado_valido (r : Respuesta) (k : string) :
  r ≠ Invalida → k ∈ claves_flujo → is_Some (valor_ingresado r k).
Proof.
  intros Hr Hk. destruct r as [|z|]; [|now eexists|contradiction].
  cbn. unfold claves_flujo in Hk.
  repeat (apply elem_of_cons in Hk as [->|Hk]); [..|inversion Hk];
    vm_compute; eauto.
Qed.

(** X1. One answer that [int] refuses, at any of the seven prompts, discards
    every answer given before it: the flow data become exactly the reference
    values, and the summary printed is that of the reference values. *)
Theorem X1_respuesta_invalida (consola : nat → Respuesta) (s : Detector) (n : nat) :
  n < 7 → consola n = Invalida →
  ingresar_datos_flujo consola s
  = (Ok (mkResumen 1000 921 79 20 (inject_Z 921 / inject_Z 1000 * 100)%Q),
     con_datos valores_default s).
Proof.
  intros Hn Hinv. rewrite ingresar_eval.
  assert (datos_finales consola = valores_default) as ->.
  { unfold datos_finales, datos_respondidos.
    destruct n as [|[|[|[|[|[|[|n]]]]]]]; [..|lia]; rewrite Hinv;
      cbn [valor_ingresado];
      repeat (destruct (valor_ingresado (consola _) _); cbn; try reflexivity). }
  now rewrite (resumen_eval _ 1000 921 56 23 20).
Qed.

Lemma X1_respuesta_invalida_witness :
  ingresar_datos_flujo consola_con_error init
  = (Ok (mkResumen 1000 921 79 20 (inject_Z 921 / inject_Z 1000 * 100)%Q),
     con_datos valores_default init).
Proof.
  apply (X1_respuesta_invalida consola_con_error init 3); [lia|reflexivity].
Defined.

(** X2. When no answer is refused, the flow data hold exactly the seven
    keys, each with the number typed at its prompt or, for a blank answer,
    its reference value; the other fields of the instance are untouched,
    whether the summary that follows raises or not. *)
Theorem X2_respuestas_validas (consola : nat → Respuesta) (s : Detector) :
  (∀ n, n < 7 → consola n ≠ Invalida) →
  ∃ d, snd (ingresar_datos_flujo consola s) = con_datos d s ∧
       dom d = list_to_set claves_flujo ∧
       ∀ n k, claves_flujo !! n = Some k →
         d !! k = match consola n with
                  | Entero z => Some z
                  | _ => valores_default !! k
                  end.
Proof.
  intros Hval. exists (datos_finales consola). split; [|split].
  - rewrite ingresar_eval.
    destruct (datos_finales_claves consola "A_to_H") as [te Hte]; [set_solver|].
    destruct (datos_finales_claves consola "E_to_V") as [ts Hts]; [set_solver|].
    destruct (datos_finales_claves consola "H_to_R") as [hr Hhr]; [set_solver|].
    destruct (datos_finales_claves consola "E_to_R") as [er Her]; [set_solver|].
    destruct (datos_finales_claves consola "R_to_D") as [td Htd]; [set_solver|].
    now rewrite (resumen_eval _ te ts hr er td).
  - unfold datos_finales, datos_respondidos.
    destruct (valor_ingresado_valido (consola 0) "A_to_H") as [v0 ->];
      [apply Hval; lia|set_solver|].
    destruct (valor_ingresado_valido (consola 1) "H_to_E") as [v1 ->];
      [apply Hval; lia|set_solver|].
    destruct (valor_ingresado_valido (consola 2) "H_to_R") as [v2 ->];
      [apply Hval; lia|set_solver|].
    destruct (valor_ingresado_valido (consola 3) "E_to_V") as [v3 ->];
      [apply Hval; lia|set_solver|].
    destruct (valor_ingresado_valido (consola 4) "E_to_R") as [v4 ->];
      [apply Hval; lia|set_solver|].
    destruct (valor_ingresado_valido (consola 5) "R_to_H") as [v5 ->];
      [apply Hval; lia|set_solver|].
    destruct (valor_ingresado_valido (consola 6) "R_to_D") as [v6 ->];
      [apply Hval; lia|set_solver|].
    cbn. rewrite !dom_insert_L, dom_empty_L. unfold claves_flujo. set_solver.
  - intros n k Hk. unfold datos_finales, datos_respondidos.
    destruct (valor_ingresado_valido (consola 0) "A_to_H") as [v0 H0];
      [apply Hval; lia|set_solver|].
    destruct (valor_ingresado_valido (consola 1) "H_to_E") as [v1 H1];
      [apply Hval; lia|set_solver|].
    destruct (valor_ingresado_valido (consola 2) "H_to_R") as [v2 H2];
      [apply Hval; lia|set_solver|].
    destruct (valor_ingresado_valido (consola 3) "E_to_V") as [v3 H3];
      [apply Hval; lia|set_solver|].
    destruct (valor_ingresado_valido (consola 4) "E_to_R") as [v4 H4];
      [apply Hval; lia|set_solver|].
    destruct (valor_ingresado_valido (consola 5) "R_to_H") as [v5 H5];
      [apply Hval; lia|set_solver|].
    destruct (valor_ingresado_valido (consola 6) "R_to_D") as [v6 H6];
      [apply Hval; lia|set_solver|].
    rewrite H0, H1, H2, H3, H4, H5, H6. cbn.
    assert (∀ r k', valor_ingresado r k'
                    = match r with Entero z => Some z | Invalida => None
                                 | Vacia => valores_default !! k' end) as Hvi
      by (intros [| |] ?; reflexivity).
    pose proof (Hval n) as Hn.
    destruct n as [|[|[|[|[|[|[|n]]]]]]]; cbn in Hk; simplify_eq;
      simplify_map_eq;
      match goal with
      | H : valor_ingresado (consola ?m) _ = Some _ |- _ = match consola ?m with _ => _ end =>
          rewrite <- H, Hvi; destruct (consola m); try reflexivity;
          exfalso; apply Hn; [lia|reflexivity]
      end.
Qed.

Lemma X2_respuestas_validas_witness :
  ∃ d, snd (ingresar_datos_flujo consola_sin_entrada init) = con_datos d init ∧
       dom d = list_to_set claves_flujo ∧
       ∀ n k, claves_flujo !! n = Some k →
         d !! k = match consola_sin_entrada n with
                  | Entero z => Some z
                  | _ => valores_default !! k
                  end.
Proof.
  apply (X2_respuestas_validas consola_sin_entrada init).
  intros n Hn. destruct n as [|n]; discriminate.
Defined.

Lemma ingresar_estado (consola : nat → Respuesta) (s : Detector) :
  snd (ingresar_datos_flujo consola s) = con_datos (datos_finales consola) s.
Proof.
  rewrite ingresar_eval.
  destruct (datos_finales_claves consola "A_to_H") as [te Hte]; [set_solver|].
  destruct (datos_finales_claves consola "E_to_V") as [ts Hts]; [set_solver|].
  destruct (datos_finales_claves consola "H_to_R") as [hr Hhr]; [set_solver|].
  destruct (datos_finales_claves consola "E_to_R") as [er Her]; [set_solver|].
  destruct (datos_finales_claves consola "R_to_D") as [td Htd]; [set_solver|].
  now rewrite (resumen_eval _ te ts hr er td).
Qed.

Lemma ingresar_cero (consola : nat → Respuesta) (s : Detector) :
  datos_finales consola !! "A_to_H" = Some 0%Z →
  fst (ingresar_datos_flujo consola s) = Raise ZeroDivisionError.
Proof.
  intros Hte. rewrite ingresar_eval.
  destruct (datos_finales_claves consola "E_to_V") as [ts Hts]; [set_solver|].
  destruct (datos_finales_claves consola "H_to_R") as [hr Hhr]; [set_solver|].
  destruct (datos_finales_claves consola "E_to_R") as [er Her]; [set_solver|].
  destruct (datos_finales_claves consola "R_to_D") as [td Htd]; [set_solver|].
  now rewrite (resumen_eval _ 0 ts hr er td).
Qed.



(** X4. Whatever the user answers, the flow data left by
    [ingresar_datos_flujo] hold every count that the matrix builder reads,
    so the builder, run next, cannot raise KeyError; when the counts are
    within the bound that keeps every quotient inside the float range, it
    raises nothing and stores a matrix of six rows of six entries. *)
Theorem X4_construir_tras_ingresar (consola : nat → Respuesta) (s : Detector) :
  datos_completos (datos_flujo (snd (ingresar_datos_flujo consola s))) ∧
  (acotados claves_matriz (datos_finales consola) →
   ∃ M, construir_matriz_transicion (snd (ingresar_datos_flujo consola s))
        = (Ok tt, con_matriz (Some M) (snd (ingresar_datos_flujo consola s))) ∧
        length M = 6 ∧ Forall (λ fila, length fila = 6) M).
Proof.
  rewrite ingresar_estado.
  split; [exact (datos_finales_completos consola)|]. intros _.
  destruct (datos_completos_inv _ (datos_finales_completos consola))
    as (he & hr & ev & er & rh & rd & Hhe & Hhr & Hev & Her & Hrh & Hrd).
  exists (matriz_de he hr ev er rh rd).
  split; [now apply construir_eval|]. split; [reflexivity|].
  unfold matriz_de, fila_de.
  repeat constructor; repeat case_match; reflexivity.
Qed.

Lemma X4_construir_tras_ingresar_witness :
  ∃ M, construir_matriz_transicion (snd (ingresar_datos_flujo consola_vacia init))
       = (Ok tt, con_matriz (Some M) (snd (ingresar_datos_flujo consola_vacia init))) ∧
       length M = 6 ∧ Forall (λ fila, length fila = 6) M.
Proof.
  destruct (X4_construir_tras_ingresar consola_vacia init) as [_ H].
  apply H. exact valores_default_acotados.
Defined.

Section Main_teoremas.

Variable linalg_eig : matriz → resultado (list Q * list (list Q)).
Variable np_argsort : list Q → list nat.
Variable crear_visualizaciones : metodo unit.


End Main_teoremas.


(** ** More on the matrix builder *)

Lemma cociente_unidad (a b : Z) :
  (0 <= a)%Z → (0 <= b)%Z → (0 < a + b)%Z →
  (0 <= inject_Z a / inject_Z (a + b) <= 1)%Q.
Proof.
  intros Ha Hb Hab.
  assert (0 < inject_Z (a + b))%Q as Hpos
    by (change 0%Q with (inject_Z 0); now rewrite <- Zlt_Qlt).
  assert (0 <= inject_Z a)%Q as Ha'
    by (change 0%Q with (inject_Z 0); now rewrite <- Zle_Qle).
  assert (inject_Z a <= inject_Z (a + b))%Q as Hle
    by (rewrite <- Zle_Qle; lia).
  split.
  - apply Qle_shift_div_l; [exact Hpos|lra].
  - apply Qle_shift_div_r; [exact Hpos|lra].
Qed.

Lemma fila_de_unidad (a b : Z) (ja jb : nat) :
  (0 <= a)%Z → (0 <= b)%Z →
  Forall (λ q, (0 <= q <= 1)%Q) (fila_de a b ja jb).
Proof.
  intros Ha Hb. unfold fila_de.
  destruct (Z.ltb_spec 0 (a + b)) as [Hab|_].
  - pose proof (cociente_unidad a b Ha Hb Hab) as H1.
    pose proof (cociente_unidad b a Hb Ha ltac:(lia)) as H2.
    replace (b + a)%Z with (a + b)%Z in H2 by lia.
    apply Forall_insert; [|exact H2].
    apply Forall_insert; [|exact H1].
    unfold fila_cero. apply Forall_replicate. lra.
  - unfold fila_cero. apply Forall_replicate. lra.
Qed.

(** X6. When the six counts are present and none is negative, every entry
    of the built matrix lies between 0 and 1. *)
Theorem X6_entradas_en_unidad (s : Detector) :
  datos_completos (datos_flujo s) →
  (∀ k v, k ∈ claves_matriz → datos_flujo s !! k = Some v → (0 <= v)%Z) →
  ∃ M, construir_matriz_transicion s = (Ok tt, con_matriz (Some M) s) ∧
       Forall (Forall (λ q, (0 <= q <= 1)%Q)) M.
Proof.
  intros Hd Hpos.
  destruct (datos_completos_inv _ Hd)
    as (he & hr & ev & er & rh & rd & Hhe & Hhr & Hev & Her & Hrh & Hrd).
  exists (matriz_de he hr ev er rh rd).
  split; [now apply construir_eval|].
  assert (0 <= he)%Z by (apply (Hpos "H_to_E"); [set_solver|assumption]).
  assert (0 <= hr)%Z by (apply (Hpos "H_to_R"); [set_solver|assumption]).
  assert (0 <= ev)%Z by (apply (Hpos "E_to_V"); [set_solver|assumption]).
  assert (0 <= er)%Z by (apply (Hpos "E_to_R"); [set_solver|assumption]).
  assert (0 <= rh)%Z by (apply (Hpos "R_to_H"); [set_solver|assumption]).
  assert (0 <= rd)%Z by (apply (Hpos "R_to_D"); [set_solver|assumption]).
  unfold matriz_de.
  repeat (apply Forall_cons; split); try (now apply fila_de_unidad);
    try apply Forall_nil; repeat (apply Forall_cons; split);
    try apply Forall_nil; lra.
Qed.

Lemma X6_entradas_en_unidad_witness :
  ∃ M, construir_matriz_transicion (con_datos valores_default init)
       = (Ok tt, con_matriz (Some M) (con_datos valores_default init)) ∧
       Forall (Forall (λ q, (0 <= q <= 1)%Q)) M.
Proof.
  apply (X6_entradas_en_unidad (con_datos valores_default init)).
  - exact valores_default_completos.
  - intros k v Hk. unfold claves_matriz in Hk.
    repeat (apply elem_of_cons in Hk as [->|Hk]); [..|inversion Hk];
      vm_compute; intros [= <-]; discriminate.
Defined.

(** X7. The builder starts from a fresh zero matrix and reads nothing but
    the flow data: the matrix it stores does not depend on the matrix (or on
    any other field) the instance held before, and building a second time
    changes nothing. *)
Theorem X7_construir_desde_cero (s1 s2 : Detector) :
  datos_completos (datos_flujo s1) →
  datos_flujo s1 = datos_flujo s2 →
  matriz_transicion (snd (construir_matriz_transicion s1))
  = matriz_transicion (snd (construir_matriz_transicion s2)) ∧
  construir_matriz_transicion (snd (construir_matriz_transicion s1))
  = construir_matriz_transicion s1.
Proof.
  intros Hd Heq.
  destruct (datos_completos_inv _ Hd)
    as (he & hr & ev & er & rh & rd & Hhe & Hhr & Hev & Her & Hrh & Hrd).
  rewrite (construir_eval s1 he hr ev er rh rd) by assumption.
  rewrite (construir_eval s2 he hr ev er rh rd) by (rewrite <- Heq; assumption).
  split; [reflexivity|].
  rewrite (construir_eval _ he hr ev er rh rd) by assumption.
  cbn [snd]. now destruct s1.
Qed.

Lemma X7_construir_desde_cero_witness :
  matriz_transicion
    (snd (construir_matriz_transicion (con_datos valores_default init)))
  = matriz_transicion (snd (construir_matriz_transicion estado_con_perdidas)) ∧
  construir_matriz_transicion
    (snd (construir_matriz_transicion (con_datos valores_default init)))
  = construir_matriz_transicion (con_datos valores_default init).
Proof.
  apply (X7_construir_desde_cero (con_datos valores_default init)
           estado_con_perdidas);
    [exact valores_default_completos | reflexivity].
Defined.

(** Symbolic execution through reads that succeed, the read that fails and
    the guards on the totals. *)
Ltac avanzar :=
  repeat first
    [ pasos
    | erewrite (ligar_raise (dato _)) by (apply dato_falta; eassumption)
    | match goal with
      | |- context [if (0 <? ?t)%Z then _ else _] =>
          destruct (0 <? t)%Z eqn:?
      end ].

(** X8. When a count is missing, and the counts that are present are
    within the bound that keeps every quotient inside the float range, the
    builder raises KeyError for the first missing key in its reading order
    (H_to_E, H_to_R, E_to_V, E_to_R, R_to_H, R_to_D).  By then the previous
    matrix has already been replaced:
    the instance holds a partly filled matrix whose Amasado row is set and
    whose Venta and Descarte rows are still all-zero. *)
Theorem X8_clave_ausente (s : Detector) (n : nat) (k : string) :
  claves_matriz !! n = Some k →
  (∀ m k', m < n → claves_matriz !! m = Some k' →
           is_Some (datos_flujo s !! k')) →
  datos_flujo s !! k = None →
  acotados claves_matriz (datos_flujo s) →
  fst (construir_matriz_transicion s) = Raise (KeyError k) ∧
  datos_flujo (snd (construir_matriz_transicion s)) = datos_flujo s ∧
  ∃ M, matriz_transicion (snd (construir_matriz_transicion s)) = Some M ∧
       M !! 0 = Some [0; 1; 0; 0; 0; 0]%Q ∧
       M !! 4 = Some fila_cero ∧ M !! 5 = Some fila_cero.
Proof.
  intros Hk Hprev Hnone _.
  destruct n as [|[|[|[|[|[|n]]]]]]; cbn in Hk; simplify_eq.
  - unfold construir_matriz_transicion. avanzar.
    cbn. repeat split. eexists. repeat split.
  - destruct (Hprev 0 "H_to_E" ltac:(lia) eq_refl) as [he Hhe].
    unfold construir_matriz_transicion. avanzar.
    cbn. repeat split. eexists. repeat split.
  - destruct (Hprev 0 "H_to_E" ltac:(lia) eq_refl) as [he Hhe].
    destruct (Hprev 1 "H_to_R" ltac:(lia) eq_refl) as [hr Hhr].
    unfold construir_matriz_transicion. avanzar;
      cbn; repeat split; eexists; repeat split.
  - destruct (Hprev 0 "H_to_E" ltac:(lia) eq_refl) as [he Hhe].
    destruct (Hprev 1 "H_to_R" ltac:(lia) eq_refl) as [hr Hhr].
    destruct (Hprev 2 "E_to_V" ltac:(lia) eq_refl) as [ev Hev].
    unfold construir_matriz_transicion. avanzar;
      cbn; repeat split; eexists; repeat split.
  - destruct (Hprev 0 "H_to_E" ltac:(lia) eq_refl) as [he Hhe].
    destruct (Hprev 1 "H_to_R" ltac:(lia) eq_refl) as [hr Hhr].
    destruct (Hprev 2 "E_to_V" ltac:(lia) eq_refl) as [ev Hev].
    destruct (Hprev 3 "E_to_R" ltac:(lia) eq_refl) as [er Her].
    unfold construir_matriz_transicion. avanzar;
      cbn; repeat split; eexists; repeat split.
  - destruct (Hprev 0 "H_to_E" ltac:(lia) eq_refl) as [he Hhe].
    destruct (Hprev 1 "H_to_R" ltac:(lia) eq_refl) as [hr Hhr].
    destruct (Hprev 2 "E_to_V" ltac:(lia) eq_refl) as [ev Hev].
    destruct (Hprev 3 "E_to_R" ltac:(lia) eq_refl) as [er Her].
    destruct (Hprev 4 "R_to_H" ltac:(lia) eq_refl) as [rh Hrh].
    unfold construir_matriz_transicion. avanzar;
      cbn; repeat split; eexists; repeat split.
Qed.

Lemma X8_clave_ausente_witness :
  fst (construir_matriz_transicion estado_con_perdidas_sin_R_to_H)
  = Raise (KeyError "R_to_H").
Proof.
  apply (X8_clave_ausente estado_con_perdidas_sin_R_to_H 4 "R_to_H").
  - reflexivity.
  - intros m k' Hm Hk'.
    destruct m as [|[|[|[|m]]]]; [..|lia]; cbn in Hk'; simplify_eq;
      vm_compute; eauto.
  - reflexivity.
  - intros k v Hk Hv. apply (valores_default_acotados k v Hk).
    change (delete "R_to_H" valores_default !! k = Some v) in Hv.
    apply lookup_delete_Some in Hv as [_ Hv]. exact Hv.
Defined.

Lemma verificacion_fila (a b : Z) (ja jb : nat) :
  (ja, jb) ∈ [(2, 3); (4, 3); (1, 5)] →
  np_allclose [np_sum (fila_de a b ja jb)] 1 = (0 <? a + b)%Z.
Proof.
  intros Hj. destruct (Z.ltb_spec 0 (a + b)) as [Hab|Hab].
  - cbn [np_allclose forallb]. rewrite andb_true_r.
    apply Qle_bool_iff. rewrite (fila_de_suma a b ja jb Hab Hj).
    vm_compute. discriminate.
  - now rewrite fila_de_nopos.
Qed.

(** X9. On flow data without negative counts the check printed after the
    matrix is built, [np.allclose(row sums, 1.0)], is [True] exactly when
    each of Horneado, Empaque and Reproceso has a positive total outgoing
    flow; when it is [False] nothing is raised and the analysis goes on with
    that matrix. *)
Theorem X9_verificacion_filas (s : Detector) :
  datos_completos (datos_flujo s) →
  sin_negativos (datos_flujo s) →
  ∃ st b,
    construir_matriz_transicion s = (Ok tt, st) ∧
    _mostrar_matriz st = (Ok b, st) ∧
    (b = true ↔ ∀ i, 1 ≤ i < 4 → (0 < total (datos_flujo s) i)%Z).
Proof.
  intros Hd _.
  destruct (datos_completos_inv _ Hd)
    as (he & hr & ev & er & rh & rd & Hhe & Hhr & Hev & Her & Hrh & Hrd).
  exists (con_matriz (Some (matriz_de he hr ev er rh rd)) s),
         ((0 <? he + hr)%Z && (0 <? ev + er)%Z && (0 <? rh + rd)%Z).
  split; [now apply construir_eval|]. split.
  - unfold _mostrar_matriz. repeat (first [paso | proyectar]).
    unfold ret. f_equal. f_equal.
    pose proof (verificacion_fila he hr 2 3 ltac:(set_solver)) as H1.
    pose proof (verificacion_fila ev er 4 3 ltac:(set_solver)) as H2.
    pose proof (verificacion_fila rh rd 1 5 ltac:(set_solver)) as H3.
    cbn [np_allclose forallb] in H1, H2, H3. rewrite andb_true_r in H1, H2, H3.
    unfold matriz_de. cbn [fmap list_fmap np_allclose forallb].
    rewrite H1, H2, H3.
    change (Qle_bool (Qabs (np_sum [0; 1; 0; 0; 0; 0]%Q - 1)) _) with true.
    change (Qle_bool (Qabs (np_sum [0; 0; 0; 0; 1; 0]%Q - 1)) _) with true.
    change (Qle_bool (Qabs (np_sum [0; 0; 0; 0; 0; 1]%Q - 1)) _) with true.
    now destruct (0 <? he + hr)%Z, (0 <? ev + er)%Z, (0 <? rh + rd)%Z.
  - rewrite !andb_true_iff, !Z.ltb_lt. split.
    + intros [[H1 H2] H3] i [Hi1 Hi2].
      destruct i as [|[|[|[|i]]]]; try lia.
      * now rewrite (total_H _ _ _ Hhe Hhr).
      * now rewrite (total_E _ _ _ Hev Her).
      * now rewrite (total_R _ _ _ Hrh Hrd).
    + intros H.
      pose proof (H 1 ltac:(lia)) as H1. rewrite (total_H _ _ _ Hhe Hhr) in H1.
      pose proof (H 2 ltac:(lia)) as H2. rewrite (total_E _ _ _ Hev Her) in H2.
      pose proof (H 3 ltac:(lia)) as H3. rewrite (total_R _ _ _ Hrh Hrd) in H3.
      auto.
Qed.

Lemma X9_verificacion_filas_witness :
  ∃ st b,
    construir_matriz_transicion (con_datos datos_sin_horneado init) = (Ok tt, st) ∧
    _mostrar_matriz st = (Ok b, st) ∧
    (b = true ↔ ∀ i, 1 ≤ i < 4 → (0 < total datos_sin_horneado i)%Z).
Proof.
  apply (X9_verificacion_filas (con_datos datos_sin_horneado init)).
  - exact datos_sin_horneado_completos.
  - intros k v Hk. unfold claves_matriz in Hk.
    repeat (apply elem_of_cons in Hk as [->|Hk]); [..|inversion Hk];
      intros Hv; vm_compute in Hv; injection Hv as <-; discriminate.
Defined.

(** ** Methods that only read *)

Lemma solo_lee_ret {A} (a : A) : solo_lee (ret a).
Proof. now intros s. Qed.

Lemma solo_lee_lanzar {A} (e : excepcion) : solo_lee (@lanzar A e).
Proof. now intros s. Qed.

Lemma solo_lee_elevar {A} (r : resultado A) : solo_lee (elevar r).
Proof. now intros s. Qed.

Lemma solo_lee_leer {A} (campo : Detector → A) : solo_lee (leer campo).
Proof. now intros s. Qed.

Lemma solo_lee_exigir {A} (o : option A) : solo_lee (exigir o).
Proof. now destruct o. Qed.

Lemma solo_lee_indice {A} (l : list A) (i : nat) : solo_lee (indice l i).
Proof. unfold indice. now destruct (l !! i). Qed.

Lemma solo_lee_ligar {A B} (m : metodo A) (k : A → metodo B) :
  solo_lee m → (∀ a, solo_lee (k a)) → solo_lee (ligar m k).
Proof.
  intros Hm Hk s. unfold ligar. specialize (Hm s).
  destruct (m s) as [[a|e] s']; cbn in Hm; subst s'; [apply Hk|reflexivity].
Qed.

Lemma solo_lee_dato (k : string) : solo_lee (dato k).
Proof.
  unfold dato. apply solo_lee_ligar; [apply solo_lee_leer|].
  intros d. destruct (d !! k); [apply solo_lee_ret|apply solo_lee_lanzar].
Qed.

Ltac solo_leer :=
  repeat first
    [ apply solo_lee_dato | apply solo_lee_ret | apply solo_lee_lanzar
    | apply solo_lee_elevar | apply solo_lee_leer | apply solo_lee_exigir
    | apply solo_lee_indice
    | apply solo_lee_ligar; [|intros ?] ].

(** X10. The methods that report (the stability analysis, the
    recommendations, the report, the flow summary and the matrix display)
    never modify the instance, whether they return or raise. *)
Theorem X10_metodos_de_lectura :
  solo_lee analizar_estabilidad_sistema ∧
  solo_lee generar_recomendaciones ∧
  solo_lee generar_reporte ∧
  solo_lee _mostrar_resumen_flujo ∧
  solo_lee _mostrar_matriz.
Proof.
  repeat split.
  - unfold analizar_estabilidad_sistema. solo_leer.
  - unfold generar_recomendaciones. cbv zeta. solo_leer.
  - unfold generar_reporte. cbv zeta. solo_leer.
  - unfold _mostrar_resumen_flujo. solo_leer.
  - unfold _mostrar_matriz. cbv zeta. solo_leer.
Qed.

(** X11. On an analysed instance whose flow data hold the four counts it
    reads, [generar_reporte] raises ZeroDivisionError when [A_to_H] is
    zero; when [A_to_H] is not zero and the counts are within the bound
    that keeps the quotients inside the float range, it returns a report
    whose efficiency is
    [E_to_V / A_to_H * 100], whose rework rate is
    [(H_to_R + E_to_R) / A_to_H * 100], whose bottleneck percentage is 100
    times the dominant-distribution value at the recorded index, and whose
    distribution pairs the state names with the dominant distribution. *)
Theorem X11_reporte (s : Detector) (v : list npfloat) (i : nat) (x : npfloat)
    (lam : Q) (a ev hr er : Z) :
  autovector_dominante s = Some v →
  cuello_botella_idx s = Some i →
  v !! i = Some x →
  autovalor_dominante s = Some lam →
  datos_flujo s !! "A_to_H" = Some a →
  datos_flujo s !! "E_to_V" = Some ev →
  datos_flujo s !! "H_to_R" = Some hr →
  datos_flujo s !! "E_to_R" = Some er →
  (a = 0%Z → generar_reporte s = (Raise ZeroDivisionError, s)) ∧
  (a ≠ 0%Z → todos_acotados (datos_flujo s) →
   ∃ r, generar_reporte s = (Ok r, s) ∧
        r_datos_flujo r = datos_flujo s ∧
        r_cuello_botella r = cuello_botella_nombre s ∧
        r_cuello_botella_porcentaje r = np_por x 100 ∧
        r_autovalor_dominante r = lam ∧
        r_distribucion_flujo r = zip etapas v ∧
        r_eficiencia_general r = (inject_Z ev / inject_Z a * 100)%Q ∧
        r_tasa_reproceso r = (inject_Z (hr + er) / inject_Z a * 100)%Q).
Proof.
  intros Hv Hi Hx Hlam Ha Hev Hhr Her. split.
  - intros ->. unfold generar_reporte. do 4 paso. rewrite Hv. do 3 paso.
    rewrite Hi. paso. unfold indice. rewrite Hx. do 3 paso. rewrite Hlam.
    do 3 paso. now erewrite ligar_raise by reflexivity.
  - intros Hne _. unfold generar_reporte. do 4 paso. rewrite Hv. do 3 paso.
    rewrite Hi. paso. unfold indice. rewrite Hx. do 3 paso. rewrite Hlam.
    do 3 paso.
    assert (∀ n, py_truediv n a = Ok (inject_Z n / inject_Z a)%Q) as Hdiv.
    { intros n. unfold py_truediv.
      destruct (Z.eqb_spec a 0); [contradiction|reflexivity]. }
    repeat (first [paso | rewrite Hdiv]).
    eexists. split; [reflexivity|]. repeat split.
Qed.

Lemma X11_reporte_witness :
  ∃ r, generar_reporte estado_con_perdidas = (Ok r, estado_con_perdidas) ∧
       r_eficiencia_general r = (inject_Z 921 / inject_Z 1000 * 100)%Q ∧
       r_cuello_botella_porcentaje r = Num (0.4 * 100)%Q.
Proof.
  destruct (X11_reporte estado_con_perdidas
              [Num 0.1; Num 0.4; Num 0.3; Num 0.2; Num 0; Num 0]%Q 1
              (Num 0.4%Q) 0.95%Q 1000 921 56 23
              eq_refl eq_refl eq_refl eq_refl eq_refl eq_refl eq_refl eq_refl)
    as [_ H].
  destruct (H ltac:(discriminate) valores_default_todos_acotados)
    as (r & Hr & _ & _ & Hp & _ & _ & He & _).
  exists r. split; [exact Hr|]. split; [exact He|exact Hp].
Defined.

(** X12. Called before the analysis has produced a dominant distribution
    or a bottleneck index, [generar_reporte] raises TypeError and builds no
    report. *)
Theorem X12_reporte_prematuro (s : Detector) :
  autovector_dominante s = None ∨ cuello_botella_idx s = None →
  generar_reporte s = (Raise TypeError, s).
Proof.
  intros H. unfold generar_reporte. do 4 paso.
  destruct (autovector_dominante s) as [v|];
    [paso|now erewrite ligar_raise by reflexivity].
  do 2 paso.
  destruct (cuello_botella_idx s) as [i|];
    [|now erewrite ligar_raise by reflexivity].
  destruct H as [H|H]; discriminate H.
Qed.

Lemma X12_reporte_prematuro_witness :
  generar_reporte (con_datos valores_default init)
  = (Raise TypeError, con_datos valores_default init).
Proof.
  apply (X12_reporte_prematuro (con_datos valores_default init)).
  left. reflexivity.
Defined.

(** The two thresholds of [generar_recomendaciones] in binary64: the
    share 0.9 gives the efficiency 90.0, which is not below 90, and the
    share 0.05 gives the rate 5.0, which is not above 5; and a share just
    below 0.9, here (9e17 - 1) / 1e18, gives the efficiency 90.0 as well. *)
Example umbrales_binary64 :
  b64_mul (b64_literal 9 10) (b64_literal 100 1) = b64_literal 90 1 ∧
  b64_mul (b64_literal 5 100) (b64_literal 100 1) = b64_literal 5 1 ∧
  ∃ q, py_truediv_binary64 (9 * 10 ^ 17 - 1) (10 ^ 18) = Ok q ∧
       b64_mul q (b64_literal 100 1) = b64_literal 90 1.
Proof.
  split; [vm_compute; reflexivity|]. split; [vm_compute; reflexivity|].
  eexists. split; vm_compute; reflexivity.
Qed.

(** X13. [generar_recomendaciones] raises ZeroDivisionError when [A_to_H]
    is zero.  When [A_to_H] is not zero and the two dividends are within
    the bound that keeps the quotients inside the float range, it returns 6,
    8 or 10 lines, the first of which names the recorded bottleneck; the two
    efficiency lines are present when [E_to_V / A_to_H * 100] is at most
    89.99 and absent when it is at least 90; the two rework lines are
    present when [(H_to_R + E_to_R) / A_to_H * 100] is at least 5.01 and
    absent when it is at most 5.  (Inside the two margins the rounding of
    the quotient decides: see [umbrales_binary64].) *)
Theorem X13_recomendaciones (s : Detector) (a tf hr er : Z) :
  datos_flujo s !! "A_to_H" = Some a →
  datos_flujo s !! "E_to_V" = Some tf →
  datos_flujo s !! "H_to_R" = Some hr →
  datos_flujo s !! "E_to_R" = Some er →
  (a = 0%Z → generar_recomendaciones s = (Raise ZeroDivisionError, s)) ∧
  (a ≠ 0%Z → (Z.abs tf <= cota_flujo)%Z → (Z.abs (hr + er) <= cota_flujo)%Z →
   let ef := (inject_Z tf / inject_Z a * 100)%Q in
   let tasa := (inject_Z (hr + er) / inject_Z a * 100)%Q in
   ∃ recs, generar_recomendaciones s = (Ok recs, s) ∧
     recs !! 0 = Some (PrioridadAlta (cuello_botella_nombre s)) ∧
     (List.length recs = 6 ∨ List.length recs = 8 ∨ List.length recs = 10) ∧
     ((ef <= 89.99)%Q → RevisarProcesos ∈ recs) ∧
     ((90 <= ef)%Q → RevisarProcesos ∉ recs) ∧
     ((5.01 <= tasa)%Q → InspeccionRigurosa ∈ recs) ∧
     ((tasa <= 5)%Q → InspeccionRigurosa ∉ recs)).
Proof.
  intros Ha Htf Hhr Her. split.
  - intros ->. unfold generar_recomendaciones. do 3 paso.
    now erewrite ligar_raise by reflexivity.
  - intros Hne _ _ ef tasa. unfold generar_recomendaciones.
    assert (∀ n, py_truediv n a = Ok (inject_Z n / inject_Z a)%Q) as Hdiv.
    { intros n. unfold py_truediv.
      destruct (Z.eqb_spec a 0); [contradiction|reflexivity]. }
    repeat (first [paso | rewrite Hdiv]). fold ef tasa.
    eexists. split; [reflexivity|].
    destruct (Qlt_le_dec ef 90) as [Hef|Hef],
             (Qlt_le_dec 5 tasa) as [Hta|Hta];
      cbn [app length List.length lookup list_lookup];
      (split; [reflexivity|]); (split; [auto|]);
      rewrite !elem_of_cons, !elem_of_nil;
      repeat split; intros H;
      try (now auto 12);
      try (intros H'; repeat (destruct H' as [H'|H']; try discriminate H');
           contradiction);
      exfalso; lra.
Qed.

Lemma X13_recomendaciones_witness :
  ∃ recs, generar_recomendaciones estado_con_perdidas
          = (Ok recs, estado_con_perdidas) ∧
          (RevisarProcesos ∉ recs) ∧ (InspeccionRigurosa ∈ recs).
Proof.
  destruct (X13_recomendaciones estado_con_perdidas 1000 921 56 23
              eq_refl eq_refl eq_refl eq_refl) as [_ H].
  destruct (H ltac:(discriminate) ltac:(vm_compute; discriminate)
              ltac:(vm_compute; discriminate))
    as (recs & Hr & _ & _ & _ & Hef & Hta & _).
  exists recs. split; [exact Hr|]. split.
  - apply Hef. vm_compute. discriminate.
  - apply Hta. vm_compute. discriminate.
Defined.

(** ** More on the bottleneck identifier *)

Lemma argmax_desde_cota (l : list npfloat) :
  ∀ (mp : npfloat) (imax i : nat),
    imax < i → argmax_desde mp imax i l < i + length l.
Proof.
  induction l as [|x l IH]; intros mp imax i Hi; cbn [argmax_desde length].
  - lia.
  - destruct (es_nan mp); [lia|].
    destruct (np_le x mp).
    + specialize (IH mp imax (S i) ltac:(lia)). lia.
    + specialize (IH x i (S i) ltac:(lia)). lia.
Qed.

Lemma np_argmax_cota (l : list npfloat) (r : nat) :
  np_argmax l = Ok r → r < length l.
Proof.
  destruct l as [|x l]; [discriminate|]. intros [= <-].
  pose proof (argmax_desde_cota l x 0 1 ltac:(lia)). cbn [length]. lia.
Qed.

Lemma identificar_inv (s s' : Detector) (u : unit) :
  identificar_cuello_botella s = (Ok u, s') →
  ∃ v i nombre,
    autovector_dominante s = Some v ∧ np_argmax (take 4 v) = Ok i ∧
    i < 4 ∧ i < length v ∧ etapas_productivas !! i = Some nombre ∧
    s' = con_cuello_nombre (Some nombre) (con_cuello_idx (Some i) s).
Proof.
  unfold identificar_cuello_botella. cbv zeta. do 2 paso.
  destruct (autovector_dominante s) as [v|]; [paso|falla].
  destruct (np_argmax (take 4 v)) as [i|e] eqn:Hi; [do 2 paso|falla].
  pose proof (np_argmax_cota _ _ Hi) as Hlt. rewrite length_take in Hlt.
  unfold indice.
  destruct (take 4 etapas !! i) as [nombre|] eqn:Hn; [paso|falla].
  intros [= _ <-]. exists v, i, nombre.
  split; [reflexivity|]. split; [exact Hi|]. split; [lia|]. split; [lia|].
  split; [exact Hn|reflexivity].
Qed.

(** The two fields are written before anything is displayed: on a
    distribution that is not empty the instance left by the identifier
    holds the index selected among the first four values and the name at
    that index. *)
Lemma identificar_estado (s : Detector) (v : list npfloat) :
  autovector_dominante s = Some v → v ≠ [] →
  ∃ i nombre,
    np_argmax (take 4 v) = Ok i ∧ i < 4 ∧ i < List.length v ∧
    etapas_productivas !! i = Some nombre ∧
    snd (identificar_cuello_botella s)
    = con_cuello_nombre (Some nombre) (con_cuello_idx (Some i) s).
Proof.
  intros Hv Hne. unfold identificar_cuello_botella. cbv zeta.
  do 2 paso. rewrite Hv. paso.
  destruct (np_argmax (take 4 v)) as [i|e] eqn:Hi.
  - do 2 paso.
    pose proof (np_argmax_cota _ _ Hi) as Hlt. rewrite length_take in Hlt.
    unfold indice.
    assert (∃ nombre, take 4 etapas !! i = Some nombre) as [nombre Hn]
      by (destruct i as [|[|[|[|i]]]]; [eauto..|lia]).
    rewrite Hn. exists i, nombre.
    split; [reflexivity|]. split; [lia|]. split; [lia|].
    split; [exact Hn|]. now paso.
  - destruct v as [|x v]; [contradiction|discriminate Hi].
Qed.

(** X14. Whatever the dominant distribution holds (nan and infinities
    included), as soon as it is not empty the instance left by the
    identifier records an index below 4 and inside the distribution,
    together with the name of that productive state, never Venta or
    Descarte; this holds whether the display that follows the two
    assignments returns or raises. *)
Theorem X14_siempre_productivo (s : Detector) (v : list npfloat) :
  autovector_dominante s = Some v → v ≠ [] →
  ∃ i nombre,
    cuello_botella_idx (snd (identificar_cuello_botella s)) = Some i ∧
    cuello_botella_nombre (snd (identificar_cuello_botella s)) = Some nombre ∧
    i < 4 ∧ i < List.length v ∧ etapas_productivas !! i = Some nombre ∧
    nombre ≠ "Venta" ∧ nombre ≠ "Descarte".
Proof.
  intros Hv Hne.
  destruct (identificar_estado s v Hv Hne) as (i & nombre & _ & Hi & Hl & Hn & ->).
  exists i, nombre. repeat split; [exact Hi|exact Hl|exact Hn|..];
    destruct i as [|[|[|[|i]]]]; cbn in Hn; simplify_eq; discriminate.
Qed.

Lemma X14_siempre_productivo_witness :
  ∃ i nombre,
    cuello_botella_idx
      (snd (identificar_cuello_botella
              (con_autovector_dominante (Some [PInf; NaN; Num 1; NInf; PInf; NaN])
                 init))) = Some i ∧
    cuello_botella_nombre
      (snd (identificar_cuello_botella
              (con_autovector_dominante (Some [PInf; NaN; Num 1; NInf; PInf; NaN])
                 init))) = Some nombre ∧
    i < 4 ∧ i < 6 ∧ etapas_productivas !! i = Some nombre ∧
    nombre ≠ "Venta" ∧ nombre ≠ "Descarte".
Proof.
  apply (X14_siempre_productivo
           (con_autovector_dominante (Some [PInf; NaN; Num 1; NInf; PInf; NaN]) init)
           [PInf; NaN; Num 1%Q; NInf; PInf; NaN]);
    [reflexivity|discriminate].
Defined.

(** X15. The selection reads only the first four values of the dominant
    distribution: two instances whose distributions agree on them are left
    with the same recorded index and the same recorded name, whatever Venta
    and Descarte hold. *)
Theorem X15_absorbentes_ignorados (s1 s2 : Detector) (v1 v2 : list npfloat) :
  autovector_dominante s1 = Some v1 →
  autovector_dominante s2 = Some v2 →
  v1 ≠ [] →
  take 4 v1 = take 4 v2 →
  cuello_botella_idx (snd (identificar_cuello_botella s1))
  = cuello_botella_idx (snd (identificar_cuello_botella s2)) ∧
  cuello_botella_nombre (snd (identificar_cuello_botella s1))
  = cuello_botella_nombre (snd (identificar_cuello_botella s2)).
Proof.
  intros H1 H2 Hne Hv.
  assert (v2 ≠ []) as Hne2.
  { intros ->. destruct v1; [contradiction|discriminate Hv]. }
  destruct (identificar_estado s1 v1 H1 Hne) as (i & n & Hi & _ & _ & Hn & ->).
  destruct (identificar_estado s2 v2 H2 Hne2) as (j & m & Hj & _ & _ & Hm & ->).
  rewrite Hv, Hj in Hi. injection Hi as ->.
  rewrite Hn in Hm. injection Hm as ->.
  split; reflexivity.
Qed.

Lemma X15_absorbentes_ignorados_witness :
  cuello_botella_nombre
    (snd (identificar_cuello_botella
            (con_autovector_dominante (Some (Num <$> distribucion_ejemplo)) init)))
  = cuello_botella_nombre
      (snd (identificar_cuello_botella
              (con_autovector_dominante
                 (Some [Num 0.1; Num 0.2; Num 0.2; Num 0; NaN; PInf]) init))).
Proof.
  apply (X15_absorbentes_ignorados
           (con_autovector_dominante (Some (Num <$> distribucion_ejemplo)) init)
           (con_autovector_dominante
              (Some [Num 0.1; Num 0.2; Num 0.2; Num 0; NaN; PInf]) init)
           (Num <$> distribucion_ejemplo)
           [Num 0.1; Num 0.2; Num 0.2; Num 0; NaN; PInf]%Q);
    [reflexivity|reflexivity|discriminate|reflexivity].
Defined.

Lemma argmax_desde_nan (pre post : list npfloat) :
  Forall (λ x, es_nan x = false) pre →
  ∀ (mp : npfloat) (imax i : nat),
    es_nan mp = false →
    argmax_desde mp imax i (pre ++ NaN :: post) = i + length pre.
Proof.
  induction 1 as [|x pre Hx Hpre IH]; intros mp imax i Hmp.
  - cbn [app argmax_desde length]. rewrite Hmp.
    replace (np_le NaN mp) with false by (now destruct mp).
    destruct post as [|y post]; cbn; lia.
  - cbn [app argmax_desde length]. rewrite Hmp.
    destruct (np_le x mp).
    + rewrite (IH mp imax (S i) Hmp). lia.
    + rewrite (IH x i (S i) Hx). lia.
Qed.

(** X16. A [nan] among the four productive values wins over every number:
    the instance left by the identifier records the position of the first
    such [nan].  So after a null dominant eigenvector, whose distribution is
    all [nan], the bottleneck recorded is Amasado.  (The display that
    follows the two assignments then fails on the [nan]; the fields stay as
    recorded.) *)
Theorem X16_nan_gana (s : Detector) (v pre post : list npfloat) :
  autovector_dominante s = Some v →
  take 4 v = (pre ++ NaN :: post)%list →
  Forall (λ x, es_nan x = false) pre →
  ∃ nombre,
    etapas_productivas !! List.length pre = Some nombre ∧
    cuello_botella_idx (snd (identificar_cuello_botella s))
    = Some (List.length pre) ∧
    cuello_botella_nombre (snd (identificar_cuello_botella s)) = Some nombre.
Proof.
  intros Hv Htake Hpre.
  assert (np_argmax (take 4 v) = Ok (List.length pre)) as Harg.
  { rewrite Htake. destruct Hpre as [|x pre Hx Hpre].
    - cbn. destruct post; reflexivity.
    - cbn [app np_argmax length]. f_equal.
      rewrite (argmax_desde_nan pre post Hpre x 0 1 Hx). lia. }
  assert (v ≠ []) as Hne.
  { intros ->. destruct pre; discriminate Htake. }
  destruct (identificar_estado s v Hv Hne) as (i & nombre & Hi & _ & _ & Hn & ->).
  rewrite Harg in Hi. injection Hi as <-.
  exists nombre. split; [exact Hn|]. split; reflexivity.
Qed.

Lemma X16_nan_gana_witness :
  cuello_botella_idx
    (snd (identificar_cuello_botella
            (con_autovector_dominante (Some (replicate 6 NaN)) init))) = Some 0 ∧
  cuello_botella_nombre
    (snd (identificar_cuello_botella
            (con_autovector_dominante (Some (replicate 6 NaN)) init)))
  = Some "Amasado".
Proof.
  destruct (X16_nan_gana
              (con_autovector_dominante (Some (replicate 6 NaN)) init)
              (replicate 6 NaN) [] [NaN; NaN; NaN]
              eq_refl eq_refl (List.Forall_nil _)) as (nombre & Hn & Hi & Hnom).
  cbn in Hn. injection Hn as <-. split; [exact Hi|exact Hnom].
Defined.

(** X17. Called before the eigen step, the identifier raises TypeError;
    on an empty distribution it raises ValueError; in both cases the
    instance is left as it was. *)
Theorem X17_identificar_sin_datos (s : Detector) :
  (autovector_dominante s = None →
   identificar_cuello_botella s = (Raise TypeError, s)) ∧
  (autovector_dominante s = Some [] →
   identificar_cuello_botella s = (Raise ValueError, s)).
Proof.
  split; intros H; unfold identificar_cuello_botella; cbv zeta;
    do 2 paso; rewrite H.
  - now erewrite ligar_raise by reflexivity.
  - paso. now erewrite ligar_raise by reflexivity.
Qed.

(** ** More on the eigen step *)

Lemma tomar_ok {A} (l : list A) (idx : list nat) :
  Forall (λ i, i < List.length l) idx →
  ∃ r, tomar l idx = Ok r ∧ List.length r = List.length idx ∧
       ∀ k i, idx !! k = Some i → r !! k = l !! i.
Proof.
  induction 1 as [|i idx Hi Hidx (r & Hr & Hlen & Hlook)].
  - exists []. repeat split. intros k i Hk. discriminate Hk.
  - destruct (lookup_lt_is_Some_2 l i Hi) as [a Ha].
    exists (a :: r). cbn [tomar]. rewrite Ha, Hr.
    split; [reflexivity|]. split; [cbn; now rewrite Hlen|].
    intros [|k] j Hk; cbn in Hk.
    + simplify_eq. now rewrite Ha.
    + cbn. now apply Hlook.
Qed.

Section Autovalor_dominante.

Variable linalg_eig : matriz → resultado (list Q * list (list Q)).
Variable np_argsort : list Q → list nat.

(** X18. Before a matrix is built the eigen step raises ValueError, and an
    exception of the solver is passed on; in both cases the instance is left
    as it was. *)
Theorem X18_calcular_sin_matriz (s : Detector) :
  (matriz_transicion s = None →
   calcular_autovalores_scipy linalg_eig np_argsort s = (Raise ValueError, s)) ∧
  (∀ M e, matriz_transicion s = Some M → linalg_eig M = Raise e →
   calcular_autovalores_scipy linalg_eig np_argsort s = (Raise e, s)).
Proof.
  split.
  - intros H. unfold calcular_autovalores_scipy. paso. rewrite H.
    now erewrite ligar_raise by reflexivity.
  - intros M e HM He. unfold calcular_autovalores_scipy. paso. rewrite HM.
    paso. rewrite He. now erewrite ligar_raise by reflexivity.
Qed.

(** X19. When [np.argsort] lists the magnitudes in ascending order and the
    solver returns as many eigenvectors as eigenvalues, at least one, the
    eigen step returns; the eigenvalues it stores are those of the solver
    reordered, and the dominant one has the largest magnitude of all. *)
Theorem X19_autovalor_de_mayor_magnitud (s : Detector) (M : matriz)
    (w : list Q) (cols : list (list Q)) :
  matriz_transicion s = Some M →
  linalg_eig M = Ok (w, cols) →
  orden_ascendente (np_abs w) (np_argsort (np_abs w)) →
  w ≠ [] → List.length cols = List.length w →
  ∃ s' lam w',
    calcular_autovalores_scipy linalg_eig np_argsort s = (Ok tt, s') ∧
    autovalores s' = Some w' ∧ w' ≡ₚ w ∧
    autovalor_dominante s' = Some lam ∧ w' !! 0 = Some lam ∧
    ∀ mu, mu ∈ w → (Qabs mu <= Qabs lam)%Q.
Proof.
  intros HM Heig [Hperm Hasc] Hne Hlen.
  set (idx := np_argsort (np_abs w)) in *.
  assert (List.length (np_abs w) = List.length w) as Habs
    by (unfold np_abs; apply length_fmap).
  rewrite Habs in Hperm.
  assert (Forall (λ i, i < List.length w) (reverse idx)) as Hrango.
  { apply Forall_forall. intros i Hi. apply (proj1 (elem_of_reverse _ _)) in Hi.
    rewrite Hperm in Hi. apply elem_of_seq in Hi. lia. }
  destruct (tomar_ok w (reverse idx) Hrango) as (w' & Hw' & Hlw' & Hlook).
  rewrite <- Hlen in Hrango.
  destruct (tomar_ok cols (reverse idx) Hrango) as (cols' & Hc' & Hlc' & _).
  assert (List.length idx = List.length w) as Hli
    by (rewrite Hperm; apply length_seq).
  rewrite length_reverse, Hli in Hlw', Hlc'.
  destruct w' as [|lam ws];
    [destruct w; [contradiction|discriminate Hlw']|].
  destruct cols' as [|v vs];
    [destruct w; [contradiction|discriminate Hlc']|].
  exists (tras_calcular w ws cols vs lam v s), lam, (lam :: ws).
  split; [now apply calcular_eval with M|].
  split; [reflexivity|]. split.
  - (* the stored eigenvalues are a permutation of the solver's *)
    assert (lam :: ws = (λ i, nth i w 0%Q) <$> reverse idx) as ->.
    { apply list_eq. intros k. rewrite list_lookup_fmap.
      destruct (reverse idx !! k) as [i|] eqn:Hk.
      - rewrite (Hlook k i Hk). cbn.
        assert (i < List.length w) as Hi.
        { apply list_elem_of_lookup_2 in Hk. apply (proj1 (elem_of_reverse _ _)) in Hk.
          rewrite Hperm in Hk. apply elem_of_seq in Hk. lia. }
        destruct (lookup_lt_is_Some_2 w i Hi) as [a Ha].
        rewrite Ha. f_equal. symmetry. now apply nth_lookup_Some.
      - cbn. apply lookup_ge_None. apply lookup_ge_None in Hk.
        rewrite length_reverse in Hk. cbn. cbn in Hlw'. lia. }
    rewrite reverse_Permutation, Hperm.
    assert (∀ n (l : list Q), n = List.length l →
              (λ i, nth i l 0%Q) <$> seq 0 n = l) as Hseq.
    { intros n l ->. apply list_eq. intros k. rewrite list_lookup_fmap.
      destruct (l !! k) as [a|] eqn:Hk.
      - rewrite lookup_seq_lt by (now apply lookup_lt_Some in Hk).
        cbn. f_equal. now apply nth_lookup_Some.
      - rewrite lookup_seq_ge by (now apply lookup_ge_None in Hk).
        reflexivity. }
    now rewrite Hseq.
  - split; [reflexivity|]. split; [reflexivity|].
    intros mu Hmu.
    apply list_elem_of_lookup in Hmu as [a Ha].
    pose proof (lookup_lt_Some _ _ _ Ha) as Halt.
    assert (a ∈ idx) as Hin by (rewrite Hperm; apply elem_of_seq; lia).
    apply list_elem_of_lookup in Hin as [i Hi].
    pose proof (lookup_lt_Some _ _ _ Hi) as Hilt.
    (* the head of the reversed index is the last position of [idx] *)
    destruct (reverse idx !! 0) as [ultimo|] eqn:Hult;
      [|apply lookup_ge_None in Hult; rewrite length_reverse in Hult; lia].
    pose proof (Hlook 0 ultimo Hult) as Hlam. cbn in Hlam.
    assert (idx !! (List.length idx - 1) = Some ultimo) as Hpos.
    { rewrite reverse_lookup in Hult by lia.
      rewrite <- Hult. f_equal; lia. }
    pose proof (Hasc i (List.length idx - 1) a ultimo ltac:(lia) Hi Hpos) as Hle.
    assert (∀ c x, w !! c = Some x → nth c (np_abs w) 0%Q = Qabs x) as Hnth.
    { intros c x Hc. apply nth_lookup_Some. unfold np_abs.
      now rewrite list_lookup_fmap, Hc. }
    rewrite (Hnth a mu Ha), (Hnth ultimo lam (eq_sym Hlam)) in Hle.
    exact Hle.
Qed.

End Autovalor_dominante.

Lemma X19_autovalor_de_mayor_magnitud_witness :
  ∃ s' lam w',
    calcular_autovalores_scipy eig_ejemplo argsort_ejemplo estado_con_matriz
    = (Ok tt, s') ∧
    autovalores s' = Some w' ∧ w' ≡ₚ [0.5; 1]%Q ∧
    autovalor_dominante s' = Some lam ∧ w' !! 0 = Some lam ∧
    ∀ mu, mu ∈ [0.5; 1]%Q → (Qabs mu <= Qabs lam)%Q.
Proof.
  apply (X19_autovalor_de_mayor_magnitud eig_ejemplo argsort_ejemplo
           estado_con_matriz (matriz_de 944 56 921 23 59 20) [0.5; 1]%Q
           [[0; 0; 0; 0; 1; 0]; [-1; 4; -3; 2; 0; 0]]%Q).
  - reflexivity.
  - reflexivity.
  - split; [reflexivity|].
    intros i j a b Hij Hi Hj.
    destruct i as [|[|i]], j as [|[|j]]; vm_compute in Hi, Hj; simplify_eq;
      try lia; vm_compute; discriminate.
  - discriminate.
  - reflexivity.
Defined.

(** ** Which fields each step writes *)

Lemma ligar_inv {A B} (m : metodo A) (k : A → metodo B) s b s' :
  ligar m k s = (Ok b, s') →
  ∃ a s1, m s = (Ok a, s1) ∧ k a s1 = (Ok b, s').
Proof.
  unfold ligar. destruct (m s) as [[a|e] s1]; [eauto|discriminate].
Qed.

Lemma conserva_solo_lee {A B} (campo : Detector → B) (m : metodo A) :
  solo_lee m → conserva campo m.
Proof. intros H s. now rewrite H. Qed.

Lemma conserva_ligar {A B C} (campo : Detector → C) (m : metodo A)
    (k : A → metodo B) :
  conserva campo m → (∀ a, conserva campo (k a)) → conserva campo (ligar m k).
Proof.
  intros Hm Hk s. unfold ligar. specialize (Hm s).
  destruct (m s) as [[a|e] s1]; cbn in Hm; [|exact Hm].
  now rewrite Hk.
Qed.

Lemma conserva_escribir {C} (campo : Detector → C) (f : Detector → Detector) :
  (∀ s, campo (f s) = campo s) → conserva campo (escribir f).
Proof. intros H s. apply H. Qed.

Lemma conserva_si {A C} (campo : Detector → C) (c : bool) (m1 m2 : metodo A) :
  conserva campo m1 → conserva campo m2 →
  conserva campo (if c then m1 else m2).
Proof. now destruct c. Qed.

(** Decompose a method and check every write against the field. *)
Ltac conservar :=
  repeat first
    [ apply conserva_solo_lee;
      first [ apply solo_lee_dato | apply solo_lee_ret | apply solo_lee_lanzar
            | apply solo_lee_elevar | apply solo_lee_leer
            | apply solo_lee_exigir | apply solo_lee_indice ]
    | apply conserva_escribir; intros ?; reflexivity
    | apply conserva_si
    | apply conserva_ligar; [|intros ?] ].

Section Campos.

Variable linalg_eig : matriz → resultado (list Q * list (list Q)).
Variable np_argsort : list Q → list nat.

(** X20. However they end, the three steps of the analysis write disjoint
    fields.  None changes the flow data; the builder changes neither the
    eigen results nor the bottleneck, so rebuilding the matrix leaves the
    results of an earlier analysis in place; the eigen step changes neither
    the matrix nor the bottleneck; the identifier changes neither the matrix
    nor the eigen results. *)
Theorem X20_campos_escritos :
  (conserva datos_flujo construir_matriz_transicion ∧
   conserva autovalores construir_matriz_transicion ∧
   conserva autovectores construir_matriz_transicion ∧
   conserva autovalor_dominante construir_matriz_transicion ∧
   conserva autovector_dominante construir_matriz_transicion ∧
   conserva cuello_botella_idx construir_matriz_transicion ∧
   conserva cuello_botella_nombre construir_matriz_transicion) ∧
  (conserva datos_flujo (calcular_autovalores_scipy linalg_eig np_argsort) ∧
   conserva matriz_transicion (calcular_autovalores_scipy linalg_eig np_argsort) ∧
   conserva cuello_botella_idx (calcular_autovalores_scipy linalg_eig np_argsort) ∧
   conserva cuello_botella_nombre
     (calcular_autovalores_scipy linalg_eig np_argsort)) ∧
  (conserva datos_flujo identificar_cuello_botella ∧
   conserva matriz_transicion identificar_cuello_botella ∧
   conserva autovalores identificar_cuello_botella ∧
   conserva autovectores identificar_cuello_botella ∧
   conserva autovalor_dominante identificar_cuello_botella ∧
   conserva autovector_dominante identificar_cuello_botella).
Proof.
  split; [|split].
  - unfold construir_matriz_transicion, asignar. cbv zeta.
    repeat split; conservar.
  - unfold calcular_autovalores_scipy. cbv zeta.
    repeat split;
      (apply conserva_ligar; [conservar|]; intros [M|]; conservar).
  - unfold identificar_cuello_botella. cbv zeta.
    repeat split; conservar.
Qed.

End Campos.

(** ** The analysis as a whole *)

Lemma construir_inv (s s1 : Detector) (u : unit) :
  construir_matriz_transicion s = (Ok u, s1) →
  ∃ he hr ev er rh rd,
    datos_completos (datos_flujo s) ∧
    s1 = con_matriz (Some (matriz_de he hr ev er rh rd)) s.
Proof.
  intros H.
  destruct (datos_flujo s !! "H_to_E") as [he|] eqn:Hhe;
    [|exfalso; revert H; unfold construir_matriz_transicion; avanzar;
      intros [=]].
  destruct (datos_flujo s !! "H_to_R") as [hr|] eqn:Hhr;
    [|exfalso; revert H; unfold construir_matriz_transicion; avanzar;
      intros [=]].
  destruct (datos_flujo s !! "E_to_V") as [ev|] eqn:Hev;
    [|exfalso; revert H; unfold construir_matriz_transicion; avanzar;
      intros [=]].
  destruct (datos_flujo s !! "E_to_R") as [er|] eqn:Her;
    [|exfalso; revert H; unfold construir_matriz_transicion; avanzar;
      intros [=]].
  destruct (datos_flujo s !! "R_to_H") as [rh|] eqn:Hrh;
    [|exfalso; revert H; unfold construir_matriz_transicion; avanzar;
      intros [=]].
  destruct (datos_flujo s !! "R_to_D") as [rd|] eqn:Hrd;
    [|exfalso; revert H; unfold construir_matriz_transicion; avanzar;
      intros [=]].
  rewrite (construir_eval s he hr ev er rh rd) in H by assumption.
  injection H as _ <-.
  exists he, hr, ev, er, rh, rd. split; [|reflexivity].
  intros k Hk. unfold claves_matriz in Hk.
  repeat (apply elem_of_cons in Hk as [->|Hk]); [..|inversion Hk]; eauto.
Qed.

Lemma analizar_inv (s s' : Detector) (inf : Informe_estabilidad) :
  analizar_estabilidad_sistema s = (Ok inf, s') →
  s' = s ∧ ∃ lam, autovalor_dominante s = Some lam ∧ inf = clasificar lam.
Proof.
  unfold analizar_estabilidad_sistema. do 2 paso.
  destruct (autovalor_dominante s) as [lam|]; [paso|falla].
  intros [= <- <-]. eauto.
Qed.

Section Analisis_completo.

Variable linalg_eig : matriz → resultado (list Q * list (list Q)).
Variable np_argsort : list Q → list nat.

Lemma calcular_conserva_datos :
  conserva datos_flujo (calcular_autovalores_scipy linalg_eig np_argsort).
Proof.
  unfold calcular_autovalores_scipy. cbv zeta.
  apply conserva_ligar; [conservar|]. intros [M|]; conservar.
Qed.

Lemma calcular_conserva_matriz :
  conserva matriz_transicion (calcular_autovalores_scipy linalg_eig np_argsort).
Proof.
  unfold calcular_autovalores_scipy. cbv zeta.
  apply conserva_ligar; [conservar|]. intros [M|]; conservar.
Qed.

(** X21. Whenever the analysis returns, for any solver: the flow data held
    the six counts and are unchanged, the instance holds the 6x6 matrix
    built from them, the verdict returned is the classification of the
    dominant eigenvalue stored, and the bottleneck recorded is a productive
    state with index below 4. *)
Theorem X21_tras_el_analisis (s s' : Detector) (inf : Informe_estabilidad) :
  analisis linalg_eig np_argsort s = (Ok inf, s') →
  datos_completos (datos_flujo s) ∧ datos_flujo s' = datos_flujo s ∧
  (∃ M, matriz_transicion s' = Some M ∧ List.length M = 6 ∧
        matriz_transicion (snd (construir_matriz_transicion s)) = Some M) ∧
  (∃ lam, autovalor_dominante s' = Some lam ∧ inf = clasificar lam) ∧
  (∃ i nombre, cuello_botella_idx s' = Some i ∧ i < 4 ∧
               cuello_botella_nombre s' = Some nombre ∧
               etapas_productivas !! i = Some nombre).
Proof.
  intros H. unfold analisis in H.
  apply ligar_inv in H as (u1 & s1 & Hc & H).
  apply ligar_inv in H as (u2 & s2 & Hcal & H).
  apply ligar_inv in H as (inf' & s3 & Han & H).
  apply ligar_inv in H as (u4 & s4 & Hid & H).
  injection H as <- <-.
  destruct (construir_inv _ _ _ Hc)
    as (he & hr & ev & er & rh & rd & Hd & ->).
  apply analizar_inv in Han as (-> & lam & Hlam & ->).
  destruct (identificar_inv _ _ _ Hid)
    as (v & i & nombre & _ & _ & Hi & _ & Hn & ->).
  pose proof (calcular_conserva_datos
                (con_matriz (Some (matriz_de he hr ev er rh rd)) s)) as Hdat.
  pose proof (calcular_conserva_matriz
                (con_matriz (Some (matriz_de he hr ev er rh rd)) s)) as Hmat.
  rewrite Hcal in Hdat, Hmat. cbn in Hdat, Hmat.
  split; [exact Hd|]. split; [exact Hdat|]. split.
  - exists (matriz_de he hr ev er rh rd). split; [exact Hmat|].
    split; [reflexivity|]. now rewrite Hc.
  - split; [exists lam; split; [exact Hlam|reflexivity]|].
    exists i, nombre. repeat split; [exact Hi|exact Hn].
Qed.

End Analisis_completo.

Lemma X21_tras_el_analisis_witness :
  datos_flujo (snd (analisis eig_ejemplo argsort_ejemplo
                      (con_datos valores_default init)))
  = valores_default ∧
  ∃ i nombre,
    cuello_botella_idx (snd (analisis eig_ejemplo argsort_ejemplo
                               (con_datos valores_default init))) = Some i ∧
    i < 4 ∧
    cuello_botella_nombre (snd (analisis eig_ejemplo argsort_ejemplo
                                  (con_datos valores_default init)))
    = Some nombre ∧
    etapas_productivas !! i = Some nombre.
Proof.
  destruct (X21_tras_el_analisis eig_ejemplo argsort_ejemplo
              (con_datos valores_default init)
              (snd (analisis eig_ejemplo argsort_ejemplo
                      (con_datos valores_default init)))
              (mkInforme ESTABLE None))
    as (_ & Hd & _ & _ & Hc).
  - vm_compute. reflexivity.
  - split; [exact Hd|exact Hc].
Defined.

Lemma solo_lee_recomendaciones : solo_lee generar_recomendaciones.
Proof. unfold generar_recomendaciones. cbv zeta. solo_leer. Qed.

Lemma solo_lee_reporte : solo_lee generar_reporte.
Proof. unfold generar_reporte. cbv zeta. solo_leer. Qed.

Section Main_completo.

Variable linalg_eig : matriz → resultado (list Q * list (list Q)).
Variable np_argsort : list Q → list nat.
Variable crear_visualizaciones : metodo unit.

(** X22. When the charts do not modify the instance and [main] reaches its
    final banner, the instance it leaves holds the entered flow data with a
    nonzero [A_to_H], a dominant eigenvalue, and a bottleneck that is a
    productive state with index below 4. *)
Theorem X22_main_completado (consola : nat → Respuesta) (s' : Detector) :
  solo_lee crear_visualizaciones →
  main linalg_eig np_argsort crear_visualizaciones consola
  = (AnalisisCompletado, s') →
  datos_flujo s' = datos_finales consola ∧
  datos_finales consola !! "A_to_H" ≠ Some 0%Z ∧
  (∃ lam, autovalor_dominante s' = Some lam) ∧
  (∃ i nombre, cuello_botella_idx s' = Some i ∧ i < 4 ∧
               cuello_botella_nombre s' = Some nombre ∧
               etapas_productivas !! i = Some nombre).
Proof.
  intros Hviz H. unfold main in H. cbv zeta in H.
  match type of H with
  | match ?c with _ => _ end = _ => destruct c as [[u|e] sf] eqn:Hc
  end; [|discriminate H].
  injection H as <-.
  apply ligar_inv in Hc as (r & s0 & Hing & Hc).
  apply ligar_inv in Hc as (u1 & s1 & Hcon & Hc).
  apply ligar_inv in Hc as (u2 & s2 & Hcal & Hc).
  apply ligar_inv in Hc as (inf & s3 & Han & Hc).
  apply ligar_inv in Hc as (u4 & s4 & Hid & Hc).
  apply ligar_inv in Hc as (recs & s5 & Hrec & Hc).
  apply ligar_inv in Hc as (u6 & s6 & Hvz & Hc).
  apply ligar_inv in Hc as (rep & s7 & Hrep & Hc).
  injection Hc as _ <-.
  pose proof (solo_lee_reporte s6) as E7. rewrite Hrep in E7. cbn in E7. subst s7.
  pose proof (Hviz s5) as E6. rewrite Hvz in E6. cbn in E6. subst s6.
  pose proof (solo_lee_recomendaciones s4) as E5. rewrite Hrec in E5.
  cbn in E5. subst s5.
  pose proof (ingresar_estado consola init) as E0. rewrite Hing in E0.
  cbn in E0. subst s0.
  destruct (construir_inv _ _ _ Hcon)
    as (he & hr & ev & er & rh & rd & _ & ->).
  apply analizar_inv in Han as (-> & lam & Hlam & _).
  destruct (identificar_inv _ _ _ Hid)
    as (v & i & nombre & _ & _ & Hi & _ & Hn & ->).
  pose proof (calcular_conserva_datos linalg_eig np_argsort
                (con_matriz (Some (matriz_de he hr ev er rh rd))
                   (con_datos (datos_finales consola) init))) as Hdat.
  rewrite Hcal in Hdat. cbn in Hdat.
  split; [exact Hdat|]. split.
  - intros Hcero. pose proof (ingresar_cero consola init Hcero) as Hf.
    rewrite Hing in Hf. discriminate Hf.
  - split; [exists lam; exact Hlam|].
    exists i, nombre. repeat split; [exact Hi|exact Hn].
Qed.

End Main_completo.

Lemma X22_main_completado_witness :
  datos_flujo (snd (main eig_ejemplo argsort_ejemplo (ret tt) consola_vacia))
  = datos_finales consola_vacia ∧
  datos_finales consola_vacia !! "A_to_H" ≠ Some 0%Z ∧
  (∃ lam, autovalor_dominante
            (snd (main eig_ejemplo argsort_ejemplo (ret tt) consola_vacia))
          = Some lam) ∧
  (∃ i nombre,
     cuello_botella_idx
       (snd (main eig_ejemplo argsort_ejemplo (ret tt) consola_vacia)) = Some i ∧
     i < 4 ∧
     cuello_botella_nombre
       (snd (main eig_ejemplo argsort_ejemplo (ret tt) consola_vacia))
     = Some nombre ∧
     etapas_productivas !! i = Some nombre).
Proof.
  apply (X22_main_completado eig_ejemplo argsort_ejemplo (ret tt) consola_vacia
           (snd (main eig_ejemplo argsort_ejemplo (ret tt) consola_vacia))).
  - intros s. reflexivity.
  - vm_compute. reflexivity.
Defined.
